(** * Timebeat SSH CLI: a shallow embedding of [timebeat_ssh_cli.py]

    The development follows the source file top to bottom:
    - [PyStr]: the Python string built-ins the program calls
      ([strip], [split], [lower], [upper], [isdigit], [int], [str], [in],
      [join]);
    - the configuration document as [yaml.safe_load] hands it to the program;
    - the process state ([World]) and the state monad the methods run in;
    - class [TimebeatCLI], the session loop and class [TimebeatSSHServer],
      method by method;
    - the properties of the command layer.

    Modelling conventions.
    - A Python [str] is a [string] holding its UTF-8 encoding.  The built-ins
      are modelled in full on ASCII text.  Of the characters outside ASCII,
      [isdigit] knows the superscript digits, which [int] does not read;
      the other characters outside ASCII are taken as characters without
      case that are neither digits nor white space.  [int] has the limit of
      4300 digits of the interpreter (CPython 3.11 and later).
    - The clock entries of the configuration document have the shape of the
      configuration schema (see [ClockEntry]).  The keys above them may be
      missing, or hold a value that cannot be used as the program uses it
      (a key left empty holds [None]); see [slot].
    - In [World] the document is a tree, updated by replacing the entry that
      changed: its entries are taken to be distinct objects, as they are
      when the file has no alias.  [Shared] has the document as
      [yaml.safe_load] builds it when the file uses anchors and aliases:
      entries are objects, and a list holds references to them.
    - [subprocess.run], the file system and PyYAML are outside the program.
      The program sees them through what they return or raise, so they are
      parameters: the outcome of the [n]-th run of a tool, the outcome of the
      [n]-th attempt to write the file, and the two PyYAML functions.
    - An exception is carried as the text that [f"{e}"] prints.  The
      [except Exception] clauses are modelled where the guarded code can
      raise in this model.  Writing to the session's output does not fail.
    - Sessions are taken one at a time. *)

From Stdlib Require Import String Ascii List Bool NArith ZArith Lia.
From Stdlib Require Import DecimalString DecimalN.
From stdpp Require Import base option list gmap strings.
Import ListNotations.

Local Open Scope string_scope.
Local Open Scope list_scope.

(** ** Python string built-ins *)

Module PyStr.

(** Characters [str.isspace] accepts, within ASCII: TAB, LF, VT, FF, CR,
    FS, GS, RS, US and the space. *)
Definition isspace (c : ascii) : bool :=
  let n := nat_of_ascii c in
  (((9 <=? n) && (n <=? 13)) || ((28 <=? n) && (n <=? 32)))%nat.

Definition isupper (c : ascii) : bool :=
  let n := nat_of_ascii c in ((65 <=? n) && (n <=? 90))%nat.

Definition islower (c : ascii) : bool :=
  let n := nat_of_ascii c in ((97 <=? n) && (n <=? 122))%nat.

Definition isdigit_char (c : ascii) : bool :=
  let n := nat_of_ascii c in ((48 <=? n) && (n <=? 57))%nat.

Definition lower_char (c : ascii) : ascii :=
  if isupper c then ascii_of_nat (nat_of_ascii c + 32) else c.

Definition upper_char (c : ascii) : ascii :=
  if islower c then ascii_of_nat (nat_of_ascii c - 32) else c.

Fixpoint map_chars (f : ascii -> ascii) (s : string) : string :=
  match s with
  | EmptyString => EmptyString
  | String c s' => String (f c) (map_chars f s')
  end.

(** [s.lower()] and [s.upper()]. *)
Definition lower : string -> string := map_chars lower_char.
Definition upper : string -> string := map_chars upper_char.

Fixpoint all_chars (p : ascii -> bool) (s : string) : bool :=
  match s with
  | EmptyString => true
  | String c s' => p c && all_chars p s'
  end.

(** A numeral: at least one character, and all of them ASCII digits. *)
Definition is_numeral (s : string) : bool :=
  match s with
  | EmptyString => false
  | _ => all_chars isdigit_char s
  end.

(** The superscript digits [²], [³] and [¹] are the bytes 194 178, 194 179
    and 194 185 in UTF-8; this is the second byte. *)
Definition superscript_digit (c : ascii) : bool :=
  let n := nat_of_ascii c in ((n =? 178) || (n =? 179) || (n =? 185))%nat.

Fixpoint all_digits (s : string) : bool :=
  match s with
  | EmptyString => true
  | String c s' =>
      if isdigit_char c then all_digits s'
      else
        match s' with
        | String d s'' =>
            (nat_of_ascii c =? 194)%nat && superscript_digit d && all_digits s''
        | EmptyString => false
        end
  end.

(** [s.isdigit()]: at least one character, and all of them digits.  The
    digits are the ASCII digits and the superscript digits; the digits of
    other scripts are left out. *)
Definition isdigit (s : string) : bool :=
  match s with
  | EmptyString => false
  | _ => all_digits s
  end.

(** [str(n)] for a non-negative integer. *)
Definition str (n : N) : string := NilEmpty.string_of_uint (N.to_uint n).

(** The digits [int] counts before it converts: those the string starts
    with. *)
Fixpoint leading_digits (s : string) : nat :=
  match s with
  | String c s' => if isdigit_char c then S (leading_digits s') else 0
  | EmptyString => 0
  end.

(** [sys.get_int_max_str_digits()], by default. *)
Definition max_str_digits : nat := 4300.

(** [int(s)] for a string without sign, space or underscore: the number a
    numeral denotes, or the text of the [ValueError] that [int] raises, for
    more digits than the limit or for a character that is not an ASCII
    digit. *)
Definition int (s : string) : string + N :=
  if (max_str_digits <? leading_digits s)%nat then
    inl ("Exceeds the limit (4300 digits) for integer string conversion: value has "
         +:+ str (N.of_nat (leading_digits s))
         +:+ " digits; use sys.set_int_max_str_digits() to increase the limit")
  else
    match is_numeral s, NilEmpty.uint_of_string s with
    | true, Some d => inr (N.of_uint d)
    | _, _ => inl ("invalid literal for int() with base 10: '" +:+ s +:+ "'")
    end.

Fixpoint lstrip (s : string) : string :=
  match s with
  | String c s' => if isspace c then lstrip s' else s
  | EmptyString => EmptyString
  end.

Fixpoint rstrip (s : string) : string :=
  match s with
  | EmptyString => EmptyString
  | String c s' =>
      match rstrip s' with
      | EmptyString => if isspace c then EmptyString else String c EmptyString
      | r => String c r
      end
  end.

(** [s.strip()]. *)
Definition strip (s : string) : string := rstrip (lstrip s).

(** [s.split()]: the maximal runs of non-space characters, in order.
    [cur] is the run being read, reversed. *)
Fixpoint split_aux (cur : list ascii) (s : string) : list string :=
  let flush (rest : list string) :=
    match cur with
    | [] => rest
    | _ => string_of_list_ascii (rev cur) :: rest
    end in
  match s with
  | EmptyString => flush []
  | String c s' =>
      if isspace c then flush (split_aux [] s') else split_aux (c :: cur) s'
  end.

Definition split (s : string) : list string := split_aux [] s.

Fixpoint startswith (p s : string) : bool :=
  match p, s with
  | EmptyString, _ => true
  | String a p', String b s' => Ascii.eqb a b && startswith p' s'
  | String _ _, EmptyString => false
  end.

(** [sub in s]: [sub] occurs in [s] as a contiguous substring. *)
Fixpoint contains (sub s : string) : bool :=
  startswith sub s ||
  match s with
  | EmptyString => false
  | String _ s' => contains sub s'
  end.

(** [sep.join(parts)]. *)
Fixpoint join (sep : string) (parts : list string) : string :=
  match parts with
  | [] => EmptyString
  | [p] => p
  | p :: rest => p +:+ sep +:+ join sep rest
  end.

End PyStr.

(** The line feed, Python's ["\n"]. *)
Definition nl : string := String (ascii_of_nat 10) EmptyString.

(** ** The configuration document

    [self.config] is what [yaml.safe_load] returned: [None], or a tree of
    dictionaries and lists.  The program reads it along one path only,
    [config['timebeat']['clock_sync'][<class>_clocks]], every step with
    [.get(key, default)], and in each clock entry it reads the keys
    [protocol], [disable], [interface], [ip] and [device].  The entries are
    typed after the configuration schema: those keys hold a string, a boolean
    and three strings, and each of them may be absent.  The other keys of an
    entry, which the program neither reads nor changes, are left out. *)

Record ClockEntry := mkClock {
  clock_protocol : option string;   (* clock.get('protocol', ...) *)
  clock_disable : option bool;      (* clock.get('disable', False) *)
  clock_interface : option string;
  clock_ip : option string;
  clock_device : option string
}.

(** What a dictionary has under a key on the path to the clock lists: the
    key is missing, so that [.get(key, default)] gives the default; or it
    holds a value the program cannot use as it does, so that the next step
    raises; or it holds a value of the kind the program expects.

    A key left empty in the file holds [None], and the next [.get] on it
    raises [AttributeError] with the text
    ['NoneType' object has no attribute 'get'].  [raises] is that text, for
    [None] and likewise for a value of any other type. *)
Inductive slot (A : Type) : Type :=
  | Missing
  | Unusable (raises : string)
  | Value (a : A).

Arguments Missing {A}.
Arguments Unusable {A} raises.
Arguments Value {A} a.

(** [config['timebeat']]: the slot of [clock_sync], a dictionary of clock
    lists by key ([primary_clocks], [secondary_clocks]).  Under such a key
    there is a list of entries, or a value that the [for] loop over it cannot
    use: [inl raises], [raises] being the text of the exception, which is
    ['NoneType' object is not iterable] for a key left empty.  (An empty
    string or dictionary there is gone through like an empty list.) *)
Record TimebeatSection := mkTimebeat {
  clock_sync : slot (gmap string (string + list ClockEntry))
}.

(** The top-level dictionary: the slot of [timebeat], and the other
    top-level keys with the text of their subtree, which the program does not
    look into. *)
Record ConfigDocument := mkDoc {
  timebeat : slot TimebeatSection;
  other_sections : list (string * string)
}.

(** ** The world outside the program *)

(** [subprocess.run(argv, capture_output=True, text=True)] either returns a
    [CompletedProcess] or raises ([FileNotFoundError] when the tool is not
    installed, ...). *)
Record CompletedProcess := mkCompleted {
  returncode : Z;
  stdout : string;
  stderr : string
}.

Inductive run_outcome :=
  | Completed (result : CompletedProcess)
  | RunRaises (e : string).

(** What happens inside [with open(path, 'w') as f: yaml.dump(config, f)]:
    [open] raises and the file is not touched; or [open] succeeds, which
    truncates the file, and then the dump either completes or raises after
    [written] characters reached the file. *)
Inductive write_outcome :=
  | WriteOk
  | OpenFails (e : string)
  | WriteFails (written : nat) (e : string).

(** A line of the session's standard input, as [process.stdin.readline]
    delivers it, or the exception it raises instead. *)
Inductive stdin_event :=
  | Line (line : string)
  | BreakReceived
  | ReadRaises (e : string).

(** The state the program acts on. *)
Record World := mkWorld {
  config : option ConfigDocument;   (* self.cli.config *)
  disk : option string;             (* text of the file at config_path *)
  calls : list (list string);       (* argv of every subprocess.run, in order *)
  saves : nat;                      (* how often the file was opened for writing *)
  out : list string;                (* every process.stdout.write, in order *)
  log : list string;                (* every logger.error, in order *)
  exit_status : option Z            (* process.exit(status) *)
}.

Definition set_config (c : option ConfigDocument) (w : World) : World :=
  mkWorld c (disk w) (calls w) (saves w) (out w) (log w) (exit_status w).
Definition set_disk (d : option string) (w : World) : World :=
  mkWorld (config w) d (calls w) (saves w) (out w) (log w) (exit_status w).
Definition add_call (argv : list string) (w : World) : World :=
  mkWorld (config w) (disk w) (calls w ++ [argv]) (saves w) (out w) (log w) (exit_status w).
Definition count_save (w : World) : World :=
  mkWorld (config w) (disk w) (calls w) (S (saves w)) (out w) (log w) (exit_status w).
Definition write (text : string) (w : World) : World :=
  mkWorld (config w) (disk w) (calls w) (saves w) (out w ++ [text]) (log w) (exit_status w).
Definition logger_error (text : string) (w : World) : World :=
  mkWorld (config w) (disk w) (calls w) (saves w) (out w) (log w ++ [text]) (exit_status w).
Definition exit (status : Z) (w : World) : World :=
  mkWorld (config w) (disk w) (calls w) (saves w) (out w) (log w) (Some status).

(** Methods are state transformers that return a value. *)
Definition M (A : Type) : Type := World -> A * World.

Definition ret {A} (a : A) : M A := fun w => (a, w).
Definition bind {A B} (m : M A) (k : A -> M B) : M B :=
  fun w => let (a, w') := m w in k a w'.
Definition modify (f : World -> World) : M unit := fun w => (tt, f w).
Definition gets {A} (f : World -> A) : M A := fun w => (f w, w).

Notation "'let*' x ':=' m 'in' k" := (bind m (fun x => k))
  (at level 10, x name, m at level 100, k at level 200).
Notation "m ';;' k" := (bind m (fun _ => k))
  (at level 100, k at level 200, right associativity).

(** What a handler gives back to the dispatcher: the response text, or an
    exception carried as the text [f"{e}"] prints. *)
Inductive outcome :=
  | Returned (text : string)
  | Raised (e : string).

Definition handler : Type := list string -> M outcome.

(** ** class TimebeatCLI *)

Definition config_path : string := "/etc/timebeat/timebeat.yml".

(** [bool(self.config)]: [None] and the empty dictionary are false. *)
Definition loaded (c : option ConfigDocument) : bool :=
  match c with
  | None => false
  | Some d =>
      match timebeat d, other_sections d with
      | Missing, [] => false
      | _, _ => true
      end
  end.

(** [self.config.get('timebeat', {}).get('clock_sync', {}).get(key, [])]
    and the start of the [for] loop over it: the entries the loop goes
    through, or the text of the exception raised on the way. *)
Definition clocks_at (c : option ConfigDocument) (key : string)
    : string + list ClockEntry :=
  match c with
  | None => inl "'NoneType' object has no attribute 'get'"
  | Some d =>
      match timebeat d with
      | Missing => inr []
      | Unusable raises => inl raises
      | Value tb =>
          match clock_sync tb with
          | Missing => inr []
          | Unusable raises => inl raises
          | Value cs =>
              match cs !! key with
              | None => inr []
              | Some clocks => clocks
              end
          end
      end
  end.

(** The entries under [key]: those the loop goes through, none where
    reading them raises. *)
Definition get_clocks (c : option ConfigDocument) (key : string) : list ClockEntry :=
  match clocks_at c key with
  | inr clocks => clocks
  | inl _ => []
  end.

(** The document after the list under [key] became [clocks]: the lists are
    part of the document, so a change to an entry of the list read by
    [get_clocks] is a change to the document. *)
Definition put_clocks (key : string) (clocks : list ClockEntry)
    (c : option ConfigDocument) : option ConfigDocument :=
  match c with
  | Some d =>
      match timebeat d with
      | Value tb =>
          match clock_sync tb with
          | Value cs =>
              Some (mkDoc (Value (mkTimebeat (Value (<[key := inr clocks]> cs))))
                          (other_sections d))
          | _ => c
          end
      | _ => c
      end
  | None => c
  end.

(** [clock.get('disable', False)]. *)
Definition disabled (clock : ClockEntry) : bool := default false (clock_disable clock).

(** [clock['disable'] = value]. *)
Definition set_disable (value : bool) (clock : ClockEntry) : ClockEntry :=
  mkClock (clock_protocol clock) (Some value) (clock_interface clock)
          (clock_ip clock) (clock_device clock).

(** [clock.get('protocol', '').lower() == protocol.lower()]. *)
Definition matches (protocol : string) (clock : ClockEntry) : bool :=
  String.eqb (PyStr.lower (default "" (clock_protocol clock))) (PyStr.lower protocol).

(** The [for clock in clocks] loop of [toggle_protocol] up to its [if]: the
    position of the first entry that matches, counted from [i]. *)
Fixpoint first_match (protocol : string) (i : nat) (clocks : list ClockEntry)
    : option (nat * ClockEntry) :=
  match clocks with
  | [] => None
  | clock :: rest =>
      if matches protocol clock then Some (i, clock)
      else first_match protocol (S i) rest
  end.

(** One line of [list_protocols]. *)
Definition protocol_line (clock : ClockEntry) : string :=
  let protocol := default "unknown" (clock_protocol clock) in
  let status := if disabled clock then "DISABLED" else "ENABLED" in
  let interface :=
    match clock_interface clock with
    | Some i => i
    | None =>
        match clock_ip clock with
        | Some a => a
        | None => default "N/A" (clock_device clock)
        end
    end in
  "  " +:+ PyStr.upper protocol +:+ ": " +:+ status +:+ " (" +:+ interface +:+ ")".

(** The text [toggle_protocol] returns after a flip that was saved;
    [was_disabled] is [current_status]. *)
Definition toggled_text (protocol clock_type : string) (was_disabled : bool) : string :=
  "Protocol " +:+ PyStr.upper protocol +:+ " "
  +:+ (if negb was_disabled then "DISABLED" else "ENABLED")
  +:+ " in " +:+ clock_type +:+ " clocks".

Module TimebeatCLI.
Section Methods.

(** The environment: the outcome of the [n]-th [subprocess.run] (counting
    from 0) given its argv, the outcome of the [n]-th attempt to write the
    configuration file, and PyYAML's two functions. *)
Variable subprocess_run : nat -> list string -> run_outcome.
Variable file_write : nat -> write_outcome.
Variable yaml_dump : option ConfigDocument -> string.
Variable yaml_safe_load : string -> string + option ConfigDocument.

Definition run (argv : list string) : M run_outcome :=
  fun w => (subprocess_run (length (calls w)) argv, add_call argv w).

Definition load_config : M bool :=
  fun w =>
    match disk w with
    | None =>
        (false, logger_error ("Failed to load config: [Errno 2] No such file or directory: '"
                              +:+ config_path +:+ "'") w)
    | Some text =>
        match yaml_safe_load text with
        | inr c => (true, set_config c w)
        | inl e => (false, logger_error ("Failed to load config: " +:+ e) w)
        end
    end.

Definition save_config : M bool :=
  fun w =>
    match file_write (saves w) with
    | WriteOk =>
        (true, count_save (set_disk (Some (yaml_dump (config w))) w))
    | OpenFails e =>
        (false, count_save (logger_error ("Failed to save config: " +:+ e) w))
    | WriteFails written e =>
        (false, count_save (logger_error ("Failed to save config: " +:+ e)
                  (set_disk (Some (substring 0 written (yaml_dump (config w)))) w)))
    end.

Definition get_status : M string :=
  let* r := run ["systemctl"; "status"; "timebeat"] in
  match r with
  | Completed result => ret (stdout result)
  | RunRaises e => ret ("Error getting status: " +:+ e)
  end.

Definition start_service : M string :=
  let* r := run ["systemctl"; "start"; "timebeat"] in
  match r with
  | Completed result =>
      if (returncode result =? 0)%Z then ret "Timebeat service started successfully"
      else ret ("Failed to start timebeat: " +:+ stderr result)
  | RunRaises e => ret ("Error starting service: " +:+ e)
  end.

Definition stop_service : M string :=
  let* r := run ["systemctl"; "stop"; "timebeat"] in
  match r with
  | Completed result =>
      if (returncode result =? 0)%Z then ret "Timebeat service stopped successfully"
      else ret ("Failed to stop timebeat: " +:+ stderr result)
  | RunRaises e => ret ("Error stopping service: " +:+ e)
  end.

Definition restart_service : M string :=
  let* r := run ["systemctl"; "restart"; "timebeat"] in
  match r with
  | Completed result =>
      if (returncode result =? 0)%Z then ret "Timebeat service restarted successfully"
      else ret ("Failed to restart timebeat: " +:+ stderr result)
  | RunRaises e => ret ("Error restarting service: " +:+ e)
  end.

Definition get_logs (lines : N) : M string :=
  let* r := run ["journalctl"; "-u"; "timebeat"; "-n"; PyStr.str lines] in
  match r with
  | Completed result => ret (stdout result)
  | RunRaises e => ret ("Error getting logs: " +:+ e)
  end.

Definition get_clock_sync_status : M string :=
  let* r := run ["chrony"; "sources"] in
  match r with
  | RunRaises e => ret ("Error getting clock sync status: " +:+ e)
  | Completed result =>
      let clock_info := stdout result +:+ nl in
      let* r := run ["timedatectl"; "status"] in
      match r with
      | RunRaises e => ret ("Error getting clock sync status: " +:+ e)
      | Completed result => ret (clock_info +:+ stdout result)
      end
  end.

Definition list_protocols : M string :=
  let* c := gets config in
  if negb (loaded c) then ret "Configuration not loaded"
  else
    match clocks_at c "primary_clocks", clocks_at c "secondary_clocks" with
    | inr primary_clocks, inr secondary_clocks =>
        let protocols :=
          ["=== PRIMARY CLOCKS ==="] ++ map protocol_line primary_clocks
          ++ [nl +:+ "=== SECONDARY CLOCKS ==="] ++ map protocol_line secondary_clocks in
        ret (PyStr.join nl protocols)
    | inl e, _ => ret ("Error listing protocols: " +:+ e)
    | inr _, inl e => ret ("Error listing protocols: " +:+ e)
    end.

Definition toggle_protocol (protocol clock_type : string) : M string :=
  let* c := gets config in
  if negb (loaded c) then ret "Configuration not loaded"
  else
    let clock_list_key := clock_type +:+ "_clocks" in
    match clocks_at c clock_list_key with
    | inl e => ret ("Error toggling protocol: " +:+ e)
    | inr clocks =>
        match first_match protocol 0 clocks with
        | Some (i, clock) =>
            let current_status := disabled clock in
            modify (set_config
                      (put_clocks clock_list_key
                         (<[i := set_disable (negb current_status) clock]> clocks) c)) ;;
            let* saved := save_config in
            if saved then
              let new_status := if negb current_status then "DISABLED" else "ENABLED" in
              ret ("Protocol " +:+ PyStr.upper protocol +:+ " " +:+ new_status
                   +:+ " in " +:+ clock_type +:+ " clocks")
            else ret "Failed to save configuration"
        | None =>
            ret ("Protocol " +:+ protocol +:+ " not found in " +:+ clock_type
                 +:+ " clocks")
        end
    end.

End Methods.
End TimebeatCLI.

(** ** Entries that are one object in several places

    [yaml.safe_load] builds one dictionary for an entry that carries an
    anchor ([&a]) and puts that same dictionary wherever the file has an
    alias of it ([*a]).  [toggle_protocol] assigns to the dictionary its loop
    found (line 167), so the assignment shows wherever that dictionary is.
    Here the clock entries are objects with an identity and the lists hold
    identities.  The path down to the lists is the one of a document that can
    be read: [timebeat] and [clock_sync] are dictionaries, and each key of
    [clock_sync] holds a list of entries. *)

Module Shared.

Record Document := mkDocument {
  objects : nat -> ClockEntry;           (* the dictionary with identity [r] *)
  clock_lists : gmap string (list nat)   (* [clock_sync]: the entries of each list *)
}.

(** [config.get('timebeat', {}).get('clock_sync', {}).get(key, [])]: the
    objects in the list, in order. *)
Definition refs (d : Document) (key : string) : list nat :=
  default [] (clock_lists d !! key).

(** The same list as the entries read from it. *)
Definition entries (d : Document) (key : string) : list ClockEntry :=
  map (objects d) (refs d key).

(** The [for clock in clocks] loop up to its [if]: the first object of the
    list that matches. *)
Fixpoint first_match (protocol : string) (objects : nat -> ClockEntry)
    (clocks : list nat) : option nat :=
  match clocks with
  | [] => None
  | clock :: rest =>
      if matches protocol (objects clock) then Some clock
      else first_match protocol objects rest
  end.

(** [clock['disable'] = value], on the object [clock]. *)
Definition assign_disable (clock : nat) (value : bool) (d : Document) : Document :=
  mkDocument
    (fun r => if Nat.eqb r clock then set_disable value (objects d r) else objects d r)
    (clock_lists d).

(** [toggle_protocol] on such a document: the text returned and the document
    after the call.  [save_config] is the method, as the answer it gives for
    the document it is to write. *)
Definition toggle_protocol (save_config : Document -> bool)
    (protocol clock_type : string) (d : Document) : string * Document :=
  let clock_list_key := clock_type +:+ "_clocks" in
  let clocks := refs d clock_list_key in
  match first_match protocol (objects d) clocks with
  | Some clock =>
      let current_status := disabled (objects d clock) in
      let d := assign_disable clock (negb current_status) d in
      if save_config d then
        let new_status := if negb current_status then "DISABLED" else "ENABLED" in
        ("Protocol " +:+ PyStr.upper protocol +:+ " " +:+ new_status
         +:+ " in " +:+ clock_type +:+ " clocks", d)
      else ("Failed to save configuration", d)
  | None =>
      ("Protocol " +:+ protocol +:+ " not found in " +:+ clock_type +:+ " clocks", d)
  end.

(** The document as a tree: every list with the entries read from it. *)
Definition tree (d : Document) : ConfigDocument :=
  mkDoc (Value (mkTimebeat (Value ((fun clocks => inr (map (objects d) clocks))
                                     <$> clock_lists d))))
        [].

End Shared.

(** ** The session

    [handle_client] reads [self.commands] and nothing else of the server, so
    its loop is written once for any table of handlers. *)

(** The [while True] loop of [handle_client], over any command table.  Each
    turn of the loop calls [readline] once, so the loop is a recursion on what
    the input has left; when nothing is left [readline] returns the empty
    string.  The function returns where the Python loop leaves through
    [break]. *)
Fixpoint session_loop (table : gmap string handler) (input : list stdin_event)
    (w : World) : World :=
  let w := write "timebeat> " w in
  match input with
  | [] => w
  | BreakReceived :: _ => w
  | ReadRaises e :: _ => logger_error ("Error in SSH session: " +:+ e) w
  | Line line :: rest =>
      if String.eqb line "" then w
      else
        let command_line := PyStr.strip line in
        if String.eqb command_line "" then session_loop table rest w
        else
          match PyStr.split command_line with
          | [] => logger_error "Error in SSH session: list index out of range" w
          | part0 :: args =>
              let command := PyStr.lower part0 in
              match table !! command with
              | Some h =>
                  match (h : handler) args w with
                  | (Returned result, w') =>
                      session_loop table rest (write (result +:+ nl +:+ nl) w')
                  | (Raised e, w') =>
                      session_loop table rest
                        (write ("Error executing command: " +:+ e +:+ nl +:+ nl) w')
                  end
              | None =>
                  session_loop table rest
                    (write ("Type 'help' for available commands" +:+ nl +:+ nl)
                       (write ("Unknown command: " +:+ command +:+ nl) w))
              end
          end
  end.

(** The body of [handle_client], over any command table: the greeting, the
    loop, and [process.exit(0)] once the loop is left. *)
Definition session (table : gmap string handler) (input : list stdin_event)
    (w : World) : World :=
  let w := write ("Welcome to Timebeat SSH CLI Interface" +:+ nl) w in
  let w := write ("Type 'help' for available commands" +:+ nl +:+ nl) w in
  exit 0 (session_loop table input w).

(** ** class TimebeatSSHServer *)

Definition help_text : string :=
  PyStr.join nl
    [ "";
      "Available Commands:";
      "------------------";
      "status          - Show timebeat service status";
      "start           - Start timebeat service";
      "stop            - Stop timebeat service  ";
      "restart         - Restart timebeat service";
      "logs [lines]    - Show timebeat logs (default: 50 lines)";
      "protocols       - List all configured protocols";
      "enable <proto>  - Enable a protocol (ptp, ntp, pps, nmea, phc)";
      "disable <proto> - Disable a protocol";
      "clock           - Show clock synchronization status";
      "config          - Show current configuration";
      "reload          - Reload configuration from file";
      "help            - Show this help message";
      "exit/quit       - Exit the session";
      "";
      "Examples:";
      "---------";
      "timebeat> status";
      "timebeat> logs 100";
      "timebeat> enable ptp";
      "timebeat> disable nmea";
      "timebeat> protocols";
      "        " ].

(** A handler that returns what a [TimebeatCLI] method returns. *)
Definition returning (m : M string) : M outcome :=
  let* text := m in ret (Returned text).

Module TimebeatSSHServer.
Section Handlers.

Variable subprocess_run : nat -> list string -> run_outcome.
Variable file_write : nat -> write_outcome.
Variable yaml_dump : option ConfigDocument -> string.
Variable yaml_safe_load : string -> string + option ConfigDocument.

Definition show_help (args : list string) : M outcome :=
  ret (Returned help_text).

Definition show_status (args : list string) : M outcome :=
  returning (TimebeatCLI.get_status subprocess_run).

Definition start_service (args : list string) : M outcome :=
  returning (TimebeatCLI.start_service subprocess_run).

Definition stop_service (args : list string) : M outcome :=
  returning (TimebeatCLI.stop_service subprocess_run).

Definition restart_service (args : list string) : M outcome :=
  returning (TimebeatCLI.restart_service subprocess_run).

(** [lines = 50], replaced by [int(args[0])] when [args] is not empty and
    [args[0].isdigit()]; the text of the exception when [int] raises. *)
Definition logs_lines (args : list string) : string + N :=
  match args with
  | a :: _ => if PyStr.isdigit a then PyStr.int a else inr 50%N
  | [] => inr 50%N
  end.

Definition show_logs (args : list string) : M outcome :=
  match logs_lines args with
  | inr lines => returning (TimebeatCLI.get_logs subprocess_run lines)
  | inl e => ret (Raised e)
  end.

Definition list_protocols (args : list string) : M outcome :=
  returning TimebeatCLI.list_protocols.

Definition enable_protocol (args : list string) : M outcome :=
  match args with
  | [] => ret (Returned "Usage: enable <protocol>")
  | protocol :: more =>
      let clock_type := match more with c :: _ => c | [] => "primary" end in
      let* result := TimebeatCLI.toggle_protocol file_write yaml_dump protocol clock_type in
      if PyStr.contains "ENABLED" result then
        let* restart_result := TimebeatCLI.restart_service subprocess_run in
        ret (Returned (result +:+ nl +:+ restart_result))
      else ret (Returned result)
  end.

Definition disable_protocol (args : list string) : M outcome :=
  match args with
  | [] => ret (Returned "Usage: disable <protocol>")
  | protocol :: more =>
      let clock_type := match more with c :: _ => c | [] => "primary" end in
      let* result := TimebeatCLI.toggle_protocol file_write yaml_dump protocol clock_type in
      if PyStr.contains "DISABLED" result then
        let* restart_result := TimebeatCLI.restart_service subprocess_run in
        ret (Returned (result +:+ nl +:+ restart_result))
      else ret (Returned result)
  end.

Definition clock_status (args : list string) : M outcome :=
  returning (TimebeatCLI.get_clock_sync_status subprocess_run).

Definition show_config (args : list string) : M outcome :=
  let* c := gets config in
  if loaded c then ret (Returned (yaml_dump c))
  else ret (Returned "Configuration not loaded").

Definition reload_config (args : list string) : M outcome :=
  let* ok := TimebeatCLI.load_config yaml_safe_load in
  if ok then ret (Returned "Configuration reloaded successfully")
  else ret (Returned "Failed to reload configuration").

Definition exit_session (args : list string) : M outcome :=
  ret (Returned "Goodbye!").

(** [self.commands]. *)
Definition commands : gmap string handler :=
  list_to_map
    [ ("help", show_help);
      ("status", show_status);
      ("start", start_service);
      ("stop", stop_service);
      ("restart", restart_service);
      ("logs", show_logs);
      ("protocols", list_protocols);
      ("enable", enable_protocol);
      ("disable", disable_protocol);
      ("clock", clock_status);
      ("config", show_config);
      ("reload", reload_config);
      ("exit", exit_session);
      ("quit", exit_session) ].

(** [handle_client(process)], [input] being what [process.stdin] delivers. *)
Definition handle_client (input : list stdin_event) (w : World) : World :=
  session commands input w.

End Handlers.
End TimebeatSSHServer.

(** ** Scenarios

    Concrete documents, worlds and environments for the examples. *)

Module Scenario.

(** [{protocol: ptp, interface: eth0}]: no [disable] key, so enabled. *)
Definition ptp : ClockEntry := mkClock (Some "ptp") None (Some "eth0") None None.

(** [{protocol: ptp, disable: true, interface: eth1}]. *)
Definition ptp_off : ClockEntry := mkClock (Some "ptp") (Some true) (Some "eth1") None None.

(** [{protocol: ntp, disable: true, ip: 10.0.0.1}]. *)
Definition ntp : ClockEntry := mkClock (Some "ntp") (Some true) None (Some "10.0.0.1") None.

Definition document (primary secondary : list ClockEntry) : ConfigDocument :=
  mkDoc (Value (mkTimebeat (Value
          (<["secondary_clocks" := inr secondary]>
             (<["primary_clocks" := inr primary]> ∅)))))
        [].

(** A session about to start: the document loaded, nothing run or written. *)
Definition world (primary secondary : list ClockEntry) : World :=
  mkWorld (Some (document primary secondary)) (Some "timebeat: on disk") [] 0 [] [] None.

(** Every tool exits with status 0 and prints nothing. *)
Definition tools_succeed (n : nat) (argv : list string) : run_outcome :=
  Completed (mkCompleted 0 "" "").

Definition writes_succeed (n : nat) : write_outcome := WriteOk.

(** The file can be opened, and the device is full. *)
Definition disk_full (n : nat) : write_outcome :=
  WriteFails 0 "[Errno 28] No space left on device".

(** The file cannot be opened for writing. *)
Definition read_only (n : nat) : write_outcome :=
  OpenFails ("[Errno 13] Permission denied: '" +:+ config_path +:+ "'").

(** [systemctl] finds no such unit: exit status 4, nothing on stdout. *)
Definition unit_missing (n : nat) (argv : list string) : run_outcome :=
  Completed (mkCompleted 4 "" "Unit timebeat.service could not be found.").

(** [chrony] is not installed; [timedatectl] works. *)
Definition chrony_missing (n : nat) (argv : list string) : run_outcome :=
  match argv with
  | "chrony" :: _ => RunRaises "[Errno 2] No such file or directory: 'chrony'"
  | _ => Completed (mkCompleted 0 "System clock synchronized: yes" "")
  end.

(** Stand-ins for PyYAML in the examples: the dump lists the primary
    clocks, and nothing parses. *)
Definition dump (c : option ConfigDocument) : string :=
  PyStr.join nl (map protocol_line (get_clocks c "primary_clocks")).

Definition safe_load (text : string) : string + option ConfigDocument :=
  inl "could not parse".

Definition commands : gmap string handler :=
  TimebeatSSHServer.commands tools_succeed writes_succeed dump safe_load.

Definition handle_client : list stdin_event -> World -> World :=
  TimebeatSSHServer.handle_client tools_succeed writes_succeed dump safe_load.

(** The table with one more command, whose handler raises. *)
Definition commands_with_fault : gmap string handler :=
  <["fault" := fun _ => ret (Raised "division by zero")]> commands.

End Scenario.

(** ** What [toggle_protocol] leaves alone *)

(** The keys of an entry other than [disable]. *)
Definition clock_identity (clock : ClockEntry)
    : option string * option string * option string * option string :=
  (clock_protocol clock, clock_interface clock, clock_ip clock, clock_device clock).

(** The class an [enable] or [disable] command names:
    [args[1] if len(args) > 1 else "primary"]. *)
Definition clock_type_of (args : list string) : string :=
  match args with
  | _ :: c :: _ => c
  | _ => "primary"
  end.

(** ** More scenarios *)

Module ScenarioFile.

(** A stand-in for [yaml.safe_load] that knows one file: [text] parses to
    [c], and nothing else parses. *)
Definition parses_to (text : string) (c : option ConfigDocument)
    : string -> string + option ConfigDocument :=
  fun t => if String.eqb t text then inr c else inl "could not parse".

(** The world of [Scenario.world] without a loaded document. *)
Definition unloaded : World :=
  mkWorld None (Some "timebeat: on disk") [] 0 [] [] None.

(** The same with the empty dictionary for a document. *)
Definition empty_document : World :=
  mkWorld (Some (mkDoc Missing [])) (Some "{}") [] 0 [] [] None.

(** No file at [config_path]. *)
Definition no_file (primary : list ClockEntry) : World :=
  mkWorld (Some (Scenario.document primary [])) None [] 0 [] [] None.

End ScenarioFile.

Module ScenarioAlias.

(** The document [yaml.safe_load] builds from the file
<<
    timebeat:
      clock_sync:
        primary_clocks:
          - &a {protocol: ptp, interface: eth0}
          - {protocol: ntp, disable: true, ip: 10.0.0.1}
          - *a
        secondary_clocks:
          - *a
>>
    Object 0 is the anchored dictionary, which is in three places; object 1
    is the [ntp] entry. *)
Definition document : Shared.Document :=
  Shared.mkDocument
    (fun r => match r with 0 => Scenario.ptp | _ => Scenario.ntp end)
    (<["secondary_clocks" := [0]]> (<["primary_clocks" := [0; 1; 0]]> ∅)).

(** A key left empty in the file: [secondary_clocks:] holds [None]. *)
Definition null_secondary : World :=
  mkWorld
    (Some (mkDoc (Value (mkTimebeat (Value
             (<["secondary_clocks" := inl "'NoneType' object is not iterable"]>
                (<["primary_clocks" := inr [Scenario.ptp]]> ∅)))))
           []))
    (Some "timebeat: on disk") [] 0 [] [] None.

(** [timebeat:] left empty, next to another top-level key. *)
Definition null_timebeat : World :=
  mkWorld
    (Some (mkDoc (Unusable "'NoneType' object has no attribute 'get'")
                 [("logging", "level: info")]))
    (Some "timebeat: on disk") [] 0 [] [] None.

End ScenarioAlias.

(** ** What a line of input amounts to *)

(** The command name and the arguments [handle_client] takes from a line:
    [parts[0].lower()] and [parts[1:]] of [line.strip().split()], together;
    empty for a blank line. *)
Definition command_of (line : string) : list string :=
  match PyStr.split (PyStr.strip line) with
  | part0 :: args => PyStr.lower part0 :: args
  | [] => []
  end.

(** A token: not empty, and without white space. *)
Definition is_token (t : string) : bool :=
  negb (String.eqb t "") && PyStr.all_chars (fun c => negb (PyStr.isspace c)) t.

(** The command lines the program is written to run: the four [systemctl]
    verbs on the service, [journalctl] with a count in ASCII digits, and the
    two clock tools. *)
Definition fixed_command_line (argv : list string) : bool :=
  match argv with
  | ["systemctl"; verb; "timebeat"] =>
      bool_decide (verb ∈ ["status"; "start"; "stop"; "restart"])
  | ["journalctl"; "-u"; "timebeat"; "-n"; count] => PyStr.is_numeral count
  | ["chrony"; "sources"] => true
  | ["timedatectl"; "status"] => true
  | _ => false
  end.

(** ** What a session adds

    [w'] comes after [w] in a session: the output of [w] is still there at
    the front, the tools run since are of the fixed command lines, and the
    exit status has not been set. *)
Definition extends (w w' : World) : Prop :=
  out w `prefix_of` out w'
  ∧ (∃ runs, calls w' = calls w ++ runs
             ∧ Forall (fun argv => fixed_command_line argv = true) runs)
  ∧ exit_status w' = exit_status w.

(** * Properties *)

(** ** Strings *)

Example strip_split_example :
  PyStr.split (PyStr.strip ("  Enable  PTP primary " +:+ nl)) = ["Enable"; "PTP"; "primary"]
  ∧ PyStr.strip (" " +:+ nl) = "".
Proof. split; reflexivity. Qed.

Example lower_upper_example :
  PyStr.lower "PtP-1" = "ptp-1" ∧ PyStr.upper "PtP-1" = "PTP-1".
Proof. split; reflexivity. Qed.

Example int_str_example :
  PyStr.int "007" = inr 7%N ∧ PyStr.str 50 = "50" ∧ PyStr.str 0 = "0"
  ∧ PyStr.isdigit "" = false ∧ PyStr.isdigit "-5" = false ∧ PyStr.isdigit "12a" = false.
Proof. repeat split; reflexivity. Qed.

Example superscript_example :
  PyStr.isdigit "²" = true ∧ PyStr.isdigit "1³" = true ∧ PyStr.is_numeral "²" = false
  ∧ PyStr.int "²" = inl "invalid literal for int() with base 10: '²'".
Proof. repeat split; reflexivity. Qed.

Example contains_example :
  PyStr.contains "ENABLED" "Protocol PTP ENABLED in primary clocks" = true
  ∧ PyStr.contains "ENABLED" "Protocol PTP DISABLED in primary clocks" = false
  ∧ PyStr.contains "DISABLED" "Failed to save configuration" = false.
Proof. repeat split; reflexivity. Qed.

Example list_protocols_example :
  (TimebeatCLI.list_protocols
     (Scenario.world [Scenario.ptp] [Scenario.ntp])).1
  = "=== PRIMARY CLOCKS ===" +:+ nl +:+ "  PTP: ENABLED (eth0)" +:+ nl
    +:+ nl +:+ "=== SECONDARY CLOCKS ===" +:+ nl +:+ "  NTP: DISABLED (10.0.0.1)".
Proof. reflexivity. Qed.

Lemma startswith_refl (s : string) : PyStr.startswith s s = true.
Proof. induction s as [|c s IH]; simpl; [done|]. by rewrite Ascii.eqb_refl. Qed.

Lemma contains_suffix (p sub : string) : PyStr.contains sub (p +:+ sub) = true.
Proof.
  induction p as [|c p IH]; simpl.
  - destruct sub; simpl; [done|]. by rewrite Ascii.eqb_refl, startswith_refl.
  - rewrite IH. apply orb_true_r.
Qed.

(** ** The clock lists of the document *)

(** Case analysis on the path of a document to its clock lists. *)
Ltac case_path c :=
  destruct c as [[[|?raises|[[|?raises|?cs]]] ?rest]|];
  unfold get_clocks, clocks_at, put_clocks; simpl; try done.

(** Entries are there only where the whole path to a list is. *)
Lemma get_clocks_at (c : option ConfigDocument) (key : string) :
  get_clocks c key ≠ [] → clocks_at c key = inr (get_clocks c key).
Proof.
  unfold get_clocks. by destruct (clocks_at c key).
Qed.

Lemma get_clocks_loaded (c : option ConfigDocument) (key : string) :
  get_clocks c key ≠ [] → loaded c = true.
Proof. case_path c. Qed.

Lemma get_clocks_put (c : option ConfigDocument) (key : string) (clocks : list ClockEntry) :
  get_clocks c key ≠ [] → get_clocks (put_clocks key clocks c) key = clocks.
Proof.
  case_path c. intros _. by rewrite lookup_insert_eq.
Qed.

Lemma get_clocks_put_ne (c : option ConfigDocument) (key key' : string)
    (clocks : list ClockEntry) :
  key' ≠ key → get_clocks (put_clocks key clocks c) key' = get_clocks c key'.
Proof.
  intros Hne. case_path c. by rewrite lookup_insert_ne.
Qed.

Lemma clocks_at_put (c : option ConfigDocument) (key : string) (clocks : list ClockEntry) :
  get_clocks c key ≠ [] → clocks_at (put_clocks key clocks c) key = inr clocks.
Proof.
  case_path c. intros _. by rewrite lookup_insert_eq.
Qed.

Lemma clocks_at_put_ne (c : option ConfigDocument) (key key' : string)
    (clocks : list ClockEntry) :
  key' ≠ key → clocks_at (put_clocks key clocks c) key' = clocks_at c key'.
Proof.
  intros Hne. case_path c. by rewrite lookup_insert_ne.
Qed.

Lemma other_sections_put (c : option ConfigDocument) (key : string)
    (clocks : list ClockEntry) :
  other_sections <$> put_clocks key clocks c = other_sections <$> c.
Proof. case_path c. Qed.

(** Writing back the list that is there changes nothing. *)
Lemma put_clocks_same (c : option ConfigDocument) (key : string) :
  get_clocks c key ≠ [] → put_clocks key (get_clocks c key) c = c.
Proof.
  case_path c.
  destruct (cs !! key) as [[e|clocks]|] eqn:Hk; simpl; [done| |done].
  intros _. by rewrite insert_id.
Qed.

Lemma put_clocks_put (c : option ConfigDocument) (key : string)
    (clocks clocks' : list ClockEntry) :
  put_clocks key clocks' (put_clocks key clocks c) = put_clocks key clocks' c.
Proof.
  case_path c. by rewrite insert_insert_eq.
Qed.

(** ** The loop of [toggle_protocol] *)

Lemma first_match_middle (protocol : string) (i : nat)
    (pre post : list ClockEntry) (c : ClockEntry) :
  Forall (fun e => matches protocol e = false) pre →
  matches protocol c = true →
  first_match protocol i (pre ++ c :: post) = Some (i + length pre, c).
Proof.
  intros Hpre Hc. revert i.
  induction Hpre as [|e pre He _ IH]; intros i; simpl.
  - rewrite Hc. do 2 f_equal. lia.
  - rewrite He, IH. do 2 f_equal. lia.
Qed.

Lemma disabled_set_disable (b : bool) (c : ClockEntry) : disabled (set_disable b c) = b.
Proof. done. Qed.

(** The same loop over objects. *)
Lemma shared_first_match_middle (protocol : string) (objects : nat -> ClockEntry)
    (pre post : list nat) (r : nat) :
  Forall (fun r0 => matches protocol (objects r0) = false) pre →
  matches protocol (objects r) = true →
  Shared.first_match protocol objects (pre ++ r :: post) = Some r.
Proof.
  intros Hpre Hr. induction Hpre as [|r0 pre H0 _ IH]; simpl; [by rewrite Hr|by rewrite H0].
Qed.

(** An assignment to an object does not show in a list that does not hold
    the object. *)
Lemma entries_assign_other (r : nat) (value : bool) (d : Shared.Document)
    (clocks : list nat) :
  r ∉ clocks →
  map (Shared.objects (Shared.assign_disable r value d)) clocks
  = map (Shared.objects d) clocks.
Proof.
  induction clocks as [|r0 clocks IH]; [done|].
  intros [Hne Hnot]%not_elem_of_cons. cbn [map]. rewrite (IH Hnot). f_equal.
  cbn [Shared.objects Shared.assign_disable].
  destruct (Nat.eqb_spec r0 r); congruence.
Qed.

Lemma refs_lookup (d : Shared.Document) (key : string) (clocks : list nat) :
  Shared.refs d key = clocks → clocks ≠ [] → Shared.clock_lists d !! key = Some clocks.
Proof.
  unfold Shared.refs. destruct (Shared.clock_lists d !! key); simpl; congruence.
Qed.

(** What the program reads from the tree of a document is what the lists of
    the document hold. *)
Lemma get_clocks_tree (d : Shared.Document) (key : string) :
  get_clocks (Some (Shared.tree d)) key = Shared.entries d key.
Proof.
  unfold get_clocks, clocks_at, Shared.tree, Shared.entries, Shared.refs. simpl.
  rewrite lookup_fmap. by destruct (Shared.clock_lists d !! key).
Qed.

(** Where the object is in one place only, the assignment to it is the
    replacement of one entry of the tree. *)
Lemma tree_assign_disable (d : Shared.Document) (key : string) (pre post : list nat)
    (r : nat) (value : bool) :
  Shared.refs d key = pre ++ r :: post →
  r ∉ pre → r ∉ post →
  (∀ key', key' ≠ key → r ∉ Shared.refs d key') →
  put_clocks key
    (map (Shared.objects d) pre ++ set_disable value (Shared.objects d r)
       :: map (Shared.objects d) post)
    (Some (Shared.tree d))
  = Some (Shared.tree (Shared.assign_disable r value d)).
Proof.
  intros Hrefs Hpre Hpost Hother.
  apply refs_lookup in Hrefs; [|by destruct pre].
  unfold put_clocks, Shared.tree. cbn [timebeat clock_sync other_sections].
  apply (f_equal (fun m => Some (mkDoc (Value (mkTimebeat (Value m))) []))).
  change (Shared.clock_lists (Shared.assign_disable r value d))
    with (Shared.clock_lists d).
  apply map_eq. intros k. destruct (decide (k = key)) as [->|Hk].
  - rewrite lookup_insert_eq, lookup_fmap, Hrefs. cbn [fmap option_fmap option_map].
    do 2 f_equal. rewrite map_app. cbn [map].
    rewrite !entries_assign_other by done. do 2 f_equal.
    cbn [Shared.objects Shared.assign_disable]. by rewrite Nat.eqb_refl.
  - rewrite lookup_insert_ne by done. rewrite !lookup_fmap.
    specialize (Hother k Hk). unfold Shared.refs in Hother.
    destruct (Shared.clock_lists d !! k) as [clocks|]; [|done].
    cbn [fmap option_fmap option_map default] in *.
    do 2 f_equal. by rewrite entries_assign_other.
Qed.

Section Toggle.

Variable file_write : nat -> write_outcome.
Variable yaml_dump : option ConfigDocument -> string.

Local Abbreviation toggle := (TimebeatCLI.toggle_protocol file_write yaml_dump).
Local Abbreviation save := (TimebeatCLI.save_config file_write yaml_dump).

(** [toggle_protocol] when the first matching entry is [c], between [pre]
    and [post]: the document with [c] flipped goes to [save_config], whose
    answer selects the text. *)
Lemma toggle_protocol_found (protocol clock_type : string) (w : World)
    (pre post : list ClockEntry) (c : ClockEntry) :
  get_clocks (config w) (clock_type +:+ "_clocks") = pre ++ c :: post →
  Forall (fun e => matches protocol e = false) pre →
  matches protocol c = true →
  let flipped :=
    put_clocks (clock_type +:+ "_clocks")
      (pre ++ set_disable (negb (disabled c)) c :: post) (config w) in
  toggle protocol clock_type w =
    let (saved, w') := save (set_config flipped w) in
    (if saved then toggled_text protocol clock_type (disabled c)
     else "Failed to save configuration", w').
Proof.
  intros Hget Hpre Hc flipped.
  assert (get_clocks (config w) (clock_type +:+ "_clocks") ≠ []) as Hne
    by (rewrite Hget; by destruct pre).
  unfold TimebeatCLI.toggle_protocol, bind, gets, modify, ret.
  rewrite (get_clocks_loaded _ (clock_type +:+ "_clocks") Hne).
  simpl negb. cbv iota. rewrite (get_clocks_at _ _ Hne).
  rewrite Hget, (first_match_middle _ 0 pre post c Hpre Hc).
  simpl. rewrite insert_app_r_alt by lia. rewrite Nat.sub_diag. simpl.
  fold flipped. destruct (save (set_config flipped w)) as [[|] w']; [|done].
  unfold toggled_text. by destruct (disabled c).
Qed.

Lemma save_config_keeps_config (w : World) : config (save w).2 = config w.
Proof.
  unfold TimebeatCLI.save_config. by destruct (file_write (saves w)).
Qed.

(** On the tree, where every entry is an object of its own: when entries of
    the selected clock class match the name, whether one or several,
    [toggle_protocol] flips the [disable] flag of the first of them and of no
    other: the entries before it and after it (where the further matches are)
    stay as they were, and so do the lists under every other key, the other
    clock class among them, and the rest of the document.  This holds
    whatever [save_config] does. *)
Theorem toggle_protocol_flips_first_match_only (protocol clock_type : string)
    (w : World) (pre post : list ClockEntry) (c : ClockEntry) :
  get_clocks (config w) (clock_type +:+ "_clocks") = pre ++ c :: post →
  Forall (fun e => matches protocol e = false) pre →
  matches protocol c = true →
  let w' := (toggle protocol clock_type w).2 in
  get_clocks (config w') (clock_type +:+ "_clocks")
    = pre ++ set_disable (negb (disabled c)) c :: post
  ∧ (∀ key', key' ≠ clock_type +:+ "_clocks" →
       get_clocks (config w') key' = get_clocks (config w) key')
  ∧ other_sections <$> config w' = other_sections <$> config w.
Proof.
  intros Hget Hpre Hc. cbv zeta.
  rewrite (toggle_protocol_found _ _ _ _ _ _ Hget Hpre Hc). cbv zeta.
  pose proof (save_config_keeps_config
    (set_config (put_clocks (clock_type +:+ "_clocks")
       (pre ++ set_disable (negb (disabled c)) c :: post) (config w)) w)) as Hcfg.
  destruct (save _) as [saved w']. simpl in *. rewrite Hcfg.
  split; [|split].
  - apply get_clocks_put. rewrite Hget. by destruct pre.
  - intros key' Hne. by apply get_clocks_put_ne.
  - apply other_sections_put.
Qed.

(** C5, as amended.  When [save_config] fails in [toggle_protocol] for a
    matching entry, the method returns the save-failure text and the document
    in memory keeps the flipped flag.  The file is as it was when the failure
    was in opening it; when the failure came after the file was opened, the
    file holds what had been written of the new document by then.
    [save_config] itself leaves the document in memory alone, whatever its
    outcome. *)
Theorem toggle_protocol_save_failure (protocol clock_type : string)
    (w : World) (pre post : list ClockEntry) (c : ClockEntry) :
  get_clocks (config w) (clock_type +:+ "_clocks") = pre ++ c :: post →
  Forall (fun e => matches protocol e = false) pre →
  matches protocol c = true →
  file_write (saves w) ≠ WriteOk →
  let r := toggle protocol clock_type w in
  r.1 = "Failed to save configuration"
  ∧ get_clocks (config r.2) (clock_type +:+ "_clocks")
      = pre ++ set_disable (negb (disabled c)) c :: post
  ∧ (∀ e, file_write (saves w) = OpenFails e → disk r.2 = disk w)
  ∧ (∀ written e, file_write (saves w) = WriteFails written e →
       disk r.2 = Some (substring 0 written (yaml_dump (config r.2))))
  ∧ (∀ w0, config (save w0).2 = config w0).
Proof.
  intros Hget Hpre Hc Hfail. cbv zeta.
  rewrite (toggle_protocol_found _ _ _ _ _ _ Hget Hpre Hc). cbv zeta.
  assert (get_clocks (config w) (clock_type +:+ "_clocks") ≠ []) as Hne
    by (rewrite Hget; by destruct pre).
  remember (save (set_config _ w)) as r eqn:Hr.
  unfold TimebeatCLI.save_config in Hr. simpl in Hr.
  destruct (file_write (saves w)) as [|e|written e] eqn:Hw; [done| |]; subst r; simpl.
  - split; [done|]. split; [by apply get_clocks_put|].
    split; [done|]. split; [done|]. apply save_config_keeps_config.
  - split; [done|]. split; [by apply get_clocks_put|].
    split; [done|]. split; [by intros ? ? [= <- _]|]. apply save_config_keeps_config.
Qed.

(** C10, as amended.  With every save succeeding, two calls of
    [toggle_protocol] for a matching entry report opposite states, and they
    bring the entry back to the state it had, now written out: the document
    is the first one with [disable] set on that entry to the value the entry
    had in effect.  When the entry carried a [disable] key to begin with, that
    is the first document itself. *)
Theorem toggle_protocol_twice (protocol clock_type : string)
    (w : World) (pre post : list ClockEntry) (c : ClockEntry) :
  (∀ n, file_write n = WriteOk) →
  get_clocks (config w) (clock_type +:+ "_clocks") = pre ++ c :: post →
  Forall (fun e => matches protocol e = false) pre →
  matches protocol c = true →
  let r1 := toggle protocol clock_type w in
  let r2 := toggle protocol clock_type r1.2 in
  r1.1 = toggled_text protocol clock_type (disabled c)
  ∧ r2.1 = toggled_text protocol clock_type (negb (disabled c))
  ∧ config r2.2
      = put_clocks (clock_type +:+ "_clocks")
          (pre ++ set_disable (disabled c) c :: post) (config w)
  ∧ get_clocks (config r2.2) (clock_type +:+ "_clocks")
      = pre ++ set_disable (disabled c) c :: post
  ∧ (is_Some (clock_disable c) → config r2.2 = config w).
Proof.
  intros Hok Hget Hpre Hc. cbv zeta.
  assert (get_clocks (config w) (clock_type +:+ "_clocks") ≠ []) as Hne
    by (rewrite Hget; by destruct pre).
  rewrite (toggle_protocol_found _ _ _ _ _ _ Hget Hpre Hc). cbv zeta.
  remember (save (set_config _ w)) as r1 eqn:Hr1.
  unfold TimebeatCLI.save_config in Hr1. rewrite Hok in Hr1. simpl in Hr1.
  subst r1. cbv iota. cbn [fst snd].
  set (c1 := set_disable (negb (disabled c)) c).
  set (w1 := count_save _).
  assert (get_clocks (config w1) (clock_type +:+ "_clocks") = pre ++ c1 :: post) as Hget1
    by (by apply get_clocks_put).
  rewrite (toggle_protocol_found _ _ _ _ _ _ Hget1 Hpre Hc). cbv zeta.
  remember (save (set_config _ w1)) as r2 eqn:Hr2.
  unfold TimebeatCLI.save_config in Hr2. rewrite Hok in Hr2. simpl in Hr2.
  subst r2. cbv iota. cbn [fst snd]. simpl config.
  rewrite put_clocks_put.
  assert (set_disable (negb (disabled c1)) c1 = set_disable (disabled c) c) as ->
    by (unfold c1; by rewrite disabled_set_disable, negb_involutive).
  split; [done|]. split; [done|]. split; [done|].
  split; [by apply get_clocks_put|].
  intros [b Hb].
  assert (set_disable (disabled c) c = c) as ->
    by (destruct c; unfold disabled, set_disable; simpl in *; by subst).
  rewrite <- Hget. by apply put_clocks_same.
Qed.

(** C6, as the code has it.  The entries of a document are objects, and
    one object may be in several places of the lists (an alias in the file).
    When entries of the selected clock class match the name, whether one or
    several, [toggle_protocol] flips the [disable] flag of one object, the
    first in the list that matches, and changes no other object and no list,
    whatever [save_config] answers.  So every entry that is another object
    reads as before: the later matches, the entries that do not match, the
    entries of the other clock class.  An entry that is the same object as the
    first match reads flipped, wherever it is.  Where the first match is in no
    other place of its list, only that one entry of the list changes; a list
    that does not hold it is unchanged; and where it is in no other place at
    all, the change is the one [toggle_protocol] makes on the tree. *)
Theorem toggle_protocol_flips_one_object (save_config : Shared.Document -> bool)
    (protocol clock_type : string) (d : Shared.Document) (pre post : list nat)
    (r : nat) :
  Shared.refs d (clock_type +:+ "_clocks") = pre ++ r :: post →
  Forall (fun r0 => matches protocol (Shared.objects d r0) = false) pre →
  matches protocol (Shared.objects d r) = true →
  let d' := (Shared.toggle_protocol save_config protocol clock_type d).2 in
  let flip clock := set_disable (negb (disabled clock)) clock in
  Shared.clock_lists d' = Shared.clock_lists d
  ∧ Shared.objects d' r = flip (Shared.objects d r)
  ∧ (∀ r', r' ≠ r → Shared.objects d' r' = Shared.objects d r')
  ∧ (∀ key, Shared.entries d' key
            = map (fun r' => if Nat.eqb r' r then flip (Shared.objects d r)
                             else Shared.objects d r')
                  (Shared.refs d key))
  ∧ (∀ key, r ∉ Shared.refs d key → Shared.entries d' key = Shared.entries d key)
  ∧ (r ∉ pre → r ∉ post →
       Shared.entries d' (clock_type +:+ "_clocks")
       = map (Shared.objects d) pre ++ flip (Shared.objects d r)
           :: map (Shared.objects d) post)
  ∧ (r ∉ pre → r ∉ post →
     (∀ key, key ≠ clock_type +:+ "_clocks" → r ∉ Shared.refs d key) →
     ∀ w, config w = Some (Shared.tree d) →
          config (toggle protocol clock_type w).2 = Some (Shared.tree d')).
Proof.
  intros Hrefs Hpre Hr. cbv zeta.
  assert ((Shared.toggle_protocol save_config protocol clock_type d).2
          = Shared.assign_disable r (negb (disabled (Shared.objects d r))) d) as ->.
  { unfold Shared.toggle_protocol. cbv zeta.
    rewrite Hrefs, (shared_first_match_middle _ _ _ _ _ Hpre Hr).
    by destruct (save_config _). }
  split; [done|]. split.
  { cbn [Shared.objects Shared.assign_disable]. by rewrite Nat.eqb_refl. }
  split.
  { intros r' Hne. cbn [Shared.objects Shared.assign_disable].
    by destruct (Nat.eqb_spec r' r). }
  split.
  { intros key. unfold Shared.entries, Shared.refs.
    cbn [Shared.objects Shared.clock_lists Shared.assign_disable].
    apply map_ext. intros r'. by destruct (Nat.eqb_spec r' r) as [->|]. }
  split.
  { intros key Hnot. unfold Shared.entries.
    change (Shared.refs (Shared.assign_disable r _ d) key) with (Shared.refs d key).
    by apply entries_assign_other. }
  split.
  { intros Hnpre Hnpost. unfold Shared.entries.
    change (Shared.refs (Shared.assign_disable r _ d) (clock_type +:+ "_clocks"))
      with (Shared.refs d (clock_type +:+ "_clocks")).
    rewrite Hrefs, map_app. cbn [map].
    rewrite !entries_assign_other by done. do 2 f_equal.
    cbn [Shared.objects Shared.assign_disable]. by rewrite Nat.eqb_refl. }
  intros Hnpre Hnpost Hother w Hcfg.
  assert (get_clocks (config w) (clock_type +:+ "_clocks")
          = map (Shared.objects d) pre ++ Shared.objects d r
              :: map (Shared.objects d) post) as Hget.
  { rewrite Hcfg, get_clocks_tree. unfold Shared.entries. by rewrite Hrefs, map_app. }
  assert (Forall (fun e => matches protocol e = false) (map (Shared.objects d) pre))
    as Hpre' by (by apply List.Forall_map).
  rewrite (toggle_protocol_found _ _ _ _ _ _ Hget Hpre' Hr). cbv zeta.
  match goal with |- context [save ?w1] =>
    pose proof (save_config_keeps_config w1) as Hsave;
    destruct (save w1) as [saved w2]
  end.
  cbn [fst snd config set_config] in *. rewrite Hsave, Hcfg.
  by apply tree_assign_disable.
Qed.

End Toggle.

(** ** Decimal numerals *)

Lemma isdigit_string_of_uint (d : Decimal.uint) :
  PyStr.all_chars PyStr.isdigit_char (NilEmpty.string_of_uint d) = true.
Proof. induction d; simpl; by rewrite ?IHd. Qed.

Lemma str_not_empty (n : N) : PyStr.str n ≠ "".
Proof.
  unfold PyStr.str. destruct n as [|p]; [done|]. simpl.
  pose proof (DecimalPos.Unsigned.to_uint_nonnil p) as Hp.
  by destruct (Pos.to_uint p).
Qed.

(** What [str] prints is a numeral. *)
Lemma is_numeral_str (n : N) : PyStr.is_numeral (PyStr.str n) = true.
Proof.
  pose proof (str_not_empty n) as Hne. unfold PyStr.is_numeral.
  destruct (PyStr.str n) eqn:Hs; [done|].
  rewrite <- Hs. apply isdigit_string_of_uint.
Qed.







Lemma append_assoc (a b c : string) : (a +:+ b) +:+ c = a +:+ b +:+ c.
Proof.
  induction a as [|x a IH]; [done|].
  change (String x ((a +:+ b) +:+ c) = String x (a +:+ b +:+ c)). by rewrite IH.
Qed.

(** ** System actions *)

(** Case analysis on the outcome of the tool the goal runs. *)
Ltac case_run :=
  match goal with
  | |- context [?run (length (calls ?w)) ?argv] =>
      destruct (run (length (calls w)) argv) as [?r|?e]
  end.

Section SystemActions.

Variable subprocess_run : nat -> list string -> run_outcome.

Local Abbreviation ran argv w := (subprocess_run (length (calls w)) argv).

(** C8, as amended.  [start_service], [stop_service] and [restart_service]
    return their success line when [systemctl] exits with status zero and a
    line that ends with the tool's stderr when it exits with another status;
    [get_status] returns the tool's stdout whatever the exit status.  When
    running the tool raises, each of the four returns an error line with the
    exception's text; none of them raises.  Each runs [systemctl] once. *)
Theorem service_actions_results (w : World) :
  let systemctl verb := ["systemctl"; verb; "timebeat"] in
  (∀ r, ran (systemctl "start") w = Completed r →
     let text := (TimebeatCLI.start_service subprocess_run w).1 in
     (returncode r = 0%Z → text = "Timebeat service started successfully")
     ∧ (returncode r ≠ 0%Z → text = "Failed to start timebeat: " +:+ stderr r
                              ∧ PyStr.contains (stderr r) text = true))
  ∧ (∀ r, ran (systemctl "stop") w = Completed r →
     let text := (TimebeatCLI.stop_service subprocess_run w).1 in
     (returncode r = 0%Z → text = "Timebeat service stopped successfully")
     ∧ (returncode r ≠ 0%Z → text = "Failed to stop timebeat: " +:+ stderr r
                              ∧ PyStr.contains (stderr r) text = true))
  ∧ (∀ r, ran (systemctl "restart") w = Completed r →
     let text := (TimebeatCLI.restart_service subprocess_run w).1 in
     (returncode r = 0%Z → text = "Timebeat service restarted successfully")
     ∧ (returncode r ≠ 0%Z → text = "Failed to restart timebeat: " +:+ stderr r
                              ∧ PyStr.contains (stderr r) text = true))
  ∧ (∀ r, ran (systemctl "status") w = Completed r →
     (TimebeatCLI.get_status subprocess_run w).1 = stdout r)
  ∧ (∀ e, ran (systemctl "start") w = RunRaises e →
     (TimebeatCLI.start_service subprocess_run w).1 = "Error starting service: " +:+ e)
  ∧ (∀ e, ran (systemctl "stop") w = RunRaises e →
     (TimebeatCLI.stop_service subprocess_run w).1 = "Error stopping service: " +:+ e)
  ∧ (∀ e, ran (systemctl "restart") w = RunRaises e →
     (TimebeatCLI.restart_service subprocess_run w).1 = "Error restarting service: " +:+ e)
  ∧ (∀ e, ran (systemctl "status") w = RunRaises e →
     (TimebeatCLI.get_status subprocess_run w).1 = "Error getting status: " +:+ e)
  ∧ calls (TimebeatCLI.start_service subprocess_run w).2 = calls w ++ [systemctl "start"]
  ∧ calls (TimebeatCLI.stop_service subprocess_run w).2 = calls w ++ [systemctl "stop"]
  ∧ calls (TimebeatCLI.restart_service subprocess_run w).2 = calls w ++ [systemctl "restart"]
  ∧ calls (TimebeatCLI.get_status subprocess_run w).2 = calls w ++ [systemctl "status"].
Proof.
  cbv zeta.
  unfold TimebeatCLI.start_service, TimebeatCLI.stop_service,
    TimebeatCLI.restart_service, TimebeatCLI.get_status, TimebeatCLI.run, bind, ret.
  repeat match goal with |- _ ∧ _ => split end.
  1-3: intros r ->; split;
    [ intros ->; done
    | intros Hrc; apply Z.eqb_neq in Hrc; rewrite Hrc;
      cbn -[PyStr.contains String.append]; split; [done|]; apply contains_suffix ].
  1-5: by intros ? ->.
  all: simpl; case_run; [|done]; try done;
    by match goal with |- context [(returncode ?r =? 0)%Z] =>
         destruct (returncode r =? 0)%Z end.
Qed.

(** C9, as amended.  When both tools run to completion, whatever their exit
    statuses, [get_clock_sync_status] returns the stdout of the first, a line
    feed and the stdout of the second; stderr is not part of it.  When running
    a tool raises, the result is the one error line with the exception's text,
    without the output of the other tool; and when it is the first tool that
    raises, the second is not run. *)
Theorem get_clock_sync_status_results (w : World) :
  let r := TimebeatCLI.get_clock_sync_status subprocess_run w in
  let second := subprocess_run (S (length (calls w))) ["timedatectl"; "status"] in
  (∀ p1 p2, ran ["chrony"; "sources"] w = Completed p1 → second = Completed p2 →
     r.1 = stdout p1 +:+ nl +:+ stdout p2
     ∧ calls r.2 = calls w ++ [["chrony"; "sources"]; ["timedatectl"; "status"]])
  ∧ (∀ e, ran ["chrony"; "sources"] w = RunRaises e →
     r.1 = "Error getting clock sync status: " +:+ e
     ∧ calls r.2 = calls w ++ [["chrony"; "sources"]])
  ∧ (∀ p1 e, ran ["chrony"; "sources"] w = Completed p1 → second = RunRaises e →
     r.1 = "Error getting clock sync status: " +:+ e).
Proof.
  cbv zeta.
  unfold TimebeatCLI.get_clock_sync_status, TimebeatCLI.run, bind, ret.
  split; [|split].
  - intros p1 p2 -> H2. simpl. rewrite length_app, Nat.add_1_r. simpl. rewrite H2.
    simpl. split; [|by rewrite <- app_assoc].
    by rewrite append_assoc.
  - by intros e ->.
  - intros p1 e -> H2. simpl. rewrite length_app, Nat.add_1_r. simpl. by rewrite H2.
Qed.

End SystemActions.

(** ** Tokenizing a line *)

Lemma lstrip_head (s : string) :
  match PyStr.lstrip s with
  | EmptyString => True
  | String c _ => PyStr.isspace c = false
  end.
Proof.
  induction s as [|c s IH]; simpl; [done|].
  by destruct (PyStr.isspace c) eqn:Hc.
Qed.

Lemma rstrip_head (c : ascii) (s : string) :
  PyStr.isspace c = false → ∃ r, PyStr.rstrip (String c s) = String c r.
Proof.
  intros Hc. simpl. rewrite Hc. destruct (PyStr.rstrip s); by eexists.
Qed.

Lemma strip_head (s : string) :
  match PyStr.strip s with
  | EmptyString => True
  | String c _ => PyStr.isspace c = false
  end.
Proof.
  unfold PyStr.strip. pose proof (lstrip_head s) as H.
  destruct (PyStr.lstrip s) as [|c t]; [done|].
  destruct (rstrip_head c t H) as [r ->]. done.
Qed.

Lemma split_aux_not_nil (cur : list ascii) (s : string) :
  cur ≠ [] → PyStr.split_aux cur s ≠ [].
Proof.
  revert cur. induction s as [|c s IH]; intros cur Hcur; simpl.
  - by destruct cur.
  - destruct (PyStr.isspace c); [by destruct cur|]. by apply IH.
Qed.

(** A line that is not blank has a first token: [parts[0]] does not raise. *)
Lemma split_strip_not_nil (line : string) :
  PyStr.strip line ≠ "" → PyStr.split (PyStr.strip line) ≠ [].
Proof.
  intros Hne. pose proof (strip_head line) as H.
  destruct (PyStr.strip line) as [|c t]; [done|].
  unfold PyStr.split. simpl. rewrite H. by apply split_aux_not_nil.
Qed.

(** ** The session loop *)

(** One turn of the loop on a line. *)
Lemma session_loop_line (table : gmap string handler) (line : string)
    (rest : list stdin_event) (w : World) :
  session_loop table (Line line :: rest) w =
  let w := write "timebeat> " w in
  if String.eqb line "" then w
  else if String.eqb (PyStr.strip line) "" then session_loop table rest w
  else
    match PyStr.split (PyStr.strip line) with
    | [] => logger_error "Error in SSH session: list index out of range" w
    | part0 :: args =>
        match table !! PyStr.lower part0 with
        | Some h =>
            match (h : handler) args w with
            | (Returned result, w') =>
                session_loop table rest (write (result +:+ nl +:+ nl) w')
            | (Raised e, w') =>
                session_loop table rest
                  (write ("Error executing command: " +:+ e +:+ nl +:+ nl) w')
            end
        | None =>
            session_loop table rest
              (write ("Type 'help' for available commands" +:+ nl +:+ nl)
                 (write ("Unknown command: " +:+ PyStr.lower part0 +:+ nl) w))
        end
    end.
Proof. done. Qed.

(** Where no handler of the table writes to the session, the output of the
    loop starts with what was written before and the prompt, whatever the
    input. *)
Lemma session_loop_prompts (table : gmap string handler) :
  (∀ name (h : handler) args w0, table !! name = Some h → out (h args w0).2 = out w0) →
  ∀ input w, ∃ more, out (session_loop table input w) = out w ++ "timebeat> " :: more.
Proof.
  intros Hquiet input. induction input as [|event rest IH]; intros w; [by exists []|].
  destruct event as [line| |e]; [|by exists []|by exists []].
  rewrite session_loop_line. cbv zeta.
  destruct (String.eqb line ""); [by exists []|].
  destruct (String.eqb (PyStr.strip line) "").
  { destruct (IH (write "timebeat> " w)) as [more H]. exists ("timebeat> " :: more).
    rewrite H. cbn [out write]. by rewrite <- app_assoc. }
  destruct (PyStr.split (PyStr.strip line)) as [|part0 args]; [by exists []|].
  destruct (table !! PyStr.lower part0) as [h|] eqn:Hh.
  - pose proof (Hquiet _ h args (write "timebeat> " w) Hh) as Hout.
    destruct (h args (write "timebeat> " w)) as [[result|e] w']; cbn [snd] in Hout.
    + destruct (IH (write (result +:+ nl +:+ nl) w')) as [more H].
      exists ((result +:+ nl +:+ nl) :: "timebeat> " :: more).
      rewrite H. cbn [out write]. rewrite Hout. cbn [out write].
      by rewrite <- !app_assoc.
    + destruct (IH (write ("Error executing command: " +:+ e +:+ nl +:+ nl) w'))
        as [more H].
      exists (("Error executing command: " +:+ e +:+ nl +:+ nl) :: "timebeat> " :: more).
      rewrite H. cbn [out write]. rewrite Hout. cbn [out write].
      by rewrite <- !app_assoc.
  - match goal with |- context [session_loop table rest ?w1] =>
      destruct (IH w1) as [more H]
    end.
    eexists (_ :: _ :: "timebeat> " :: more).
    rewrite H. cbn [out write]. by rewrite <- !app_assoc.
Qed.

(** C4. Take any command table whose handlers do not write to the session
    themselves (a handler is not given [process]), any state, and any line
    read (a line, not the end of input).  The session output after the whole
    run is: what was written before, the prompt, the response to the line,
    the prompt again, and what the rest of the input adds; and the run is the
    run of the loop on the rest of the input from the state reached, so the
    lines that follow are read.  The response to a blank line is nothing.  A
    line that is not blank has a first token, the command name once
    lowercased.  When the name is not in the table, the response is the
    [Unknown command] line with the name, then the hint at [help], and
    nothing else.  When the handler raises [e], the response is
    [Error executing command: e] and a blank line.  When the handler returns,
    the response is its text and a blank line. *)
Theorem dispatch_keeps_session_open (table : gmap string handler)
    (line : string) (rest : list stdin_event) (w : World) :
  (∀ name (h : handler) args w0, table !! name = Some h → out (h args w0).2 = out w0) →
  line ≠ "" →
  let prompted := write "timebeat> " w in
  let final := session_loop table (Line line :: rest) w in
  let continues_from w' := final = session_loop table rest w' in
  let responds response :=
    ∃ more, out final = out w ++ "timebeat> " :: response ++ "timebeat> " :: more in
  (PyStr.strip line = "" → continues_from prompted ∧ responds [])
  ∧ (PyStr.strip line ≠ "" → ∃ part0 args, PyStr.split (PyStr.strip line) = part0 :: args)
  ∧ (∀ part0 args, PyStr.strip line ≠ "" →
       PyStr.split (PyStr.strip line) = part0 :: args →
       let command := PyStr.lower part0 in
       (table !! command = None →
          continues_from
            (write ("Type 'help' for available commands" +:+ nl +:+ nl)
               (write ("Unknown command: " +:+ command +:+ nl) prompted))
          ∧ responds [ "Unknown command: " +:+ command +:+ nl;
                       "Type 'help' for available commands" +:+ nl +:+ nl ])
       ∧ (∀ (h : handler) e w', table !! command = Some h → h args prompted = (Raised e, w') →
            continues_from (write ("Error executing command: " +:+ e +:+ nl +:+ nl) w')
            ∧ responds [ "Error executing command: " +:+ e +:+ nl +:+ nl ])
       ∧ (∀ (h : handler) result w', table !! command = Some h →
            h args prompted = (Returned result, w') →
            continues_from (write (result +:+ nl +:+ nl) w')
            ∧ responds [ result +:+ nl +:+ nl ])).
Proof.
  intros Hquiet Hline. cbv zeta.
  assert (String.eqb line "" = false) as Hl by (by apply String.eqb_neq).
  pose proof (split_strip_not_nil line) as Hsplit.
  assert (∀ response w',
    session_loop table (Line line :: rest) w = session_loop table rest w' →
    out w' = out w ++ "timebeat> " :: response →
    ∃ more, out (session_loop table (Line line :: rest) w)
            = out w ++ "timebeat> " :: response ++ "timebeat> " :: more) as Hresponds.
  { intros response w' -> Hout.
    destruct (session_loop_prompts table Hquiet rest w') as [more H].
    exists more. rewrite H, Hout. by rewrite <- app_assoc. }
  split; [|split].
  - intros He.
    assert (session_loop table (Line line :: rest) w
            = session_loop table rest (write "timebeat> " w)) as Hrun.
    { rewrite session_loop_line. cbv zeta. by rewrite Hl, He. }
    split; [exact Hrun|]. by eapply Hresponds; [exact Hrun|].
  - intros He. destruct (PyStr.split (PyStr.strip line)) as [|part0 args];
      [by destruct Hsplit|by eexists _, _].
  - intros part0 args He%String.eqb_neq Hparts.
    split; [|split].
    + intros Hnone.
      match goal with |- ?run ∧ _ => assert run as Hrun end.
      { rewrite session_loop_line. cbv zeta. by rewrite Hl, He, Hparts, Hnone. }
      split; [exact Hrun|]. eapply Hresponds; [exact Hrun|].
      cbn [out write]. by rewrite <- !app_assoc.
    + intros h e w' Hh Hr.
      match goal with |- ?run ∧ _ => assert run as Hrun end.
      { rewrite session_loop_line. cbv zeta. by rewrite Hl, He, Hparts, Hh, Hr. }
      split; [exact Hrun|]. eapply Hresponds; [exact Hrun|].
      pose proof (Hquiet _ h args (write "timebeat> " w) Hh) as Hout.
      rewrite Hr in Hout. cbn [snd] in Hout.
      cbn [out write]. rewrite Hout. cbn [out write]. by rewrite <- !app_assoc.
    + intros h result w' Hh Hr.
      match goal with |- ?run ∧ _ => assert run as Hrun end.
      { rewrite session_loop_line. cbv zeta. by rewrite Hl, He, Hparts, Hh, Hr. }
      split; [exact Hrun|]. eapply Hresponds; [exact Hrun|].
      pose proof (Hquiet _ h args (write "timebeat> " w) Hh) as Hout.
      rewrite Hr in Hout. cbn [snd] in Hout.
      cbn [out write]. rewrite Hout. cbn [out write]. by rewrite <- !app_assoc.
Qed.

(** ** The session loop of the server *)

Section Server.

Variable subprocess_run : nat -> list string -> run_outcome.
Variable file_write : nat -> write_outcome.
Variable yaml_dump : option ConfigDocument -> string.
Variable yaml_safe_load : string -> string + option ConfigDocument.

Local Abbreviation commands :=
  (TimebeatSSHServer.commands subprocess_run file_write yaml_dump yaml_safe_load).

(** C1, where the code departs from the claim.  The end of the input ends
    the loop after the prompt, without a farewell.  [exit_session] returns the
    farewell, and that is all: after [exit] or [quit] the loop writes the
    farewell and goes on with the rest of the input like after any other
    command.  So in the session [exit], [restart] the prompt is written again
    after the farewell and the service is restarted. *)
Theorem exit_does_not_end_session (rest : list stdin_event) (w : World) :
  session_loop commands [] w = write "timebeat> " w
  ∧ session_loop commands (Line ("exit" +:+ nl) :: rest) w
    = session_loop commands rest
        (write ("Goodbye!" +:+ nl +:+ nl) (write "timebeat> " w))
  ∧ session_loop commands (Line ("quit" +:+ nl) :: rest) w
    = session_loop commands rest
        (write ("Goodbye!" +:+ nl +:+ nl) (write "timebeat> " w))
  ∧ (let w' := Scenario.handle_client
                 [Line ("exit" +:+ nl); Line ("restart" +:+ nl)]
                 (Scenario.world [Scenario.ptp] []) in
     calls w' = [["systemctl"; "restart"; "timebeat"]]
     ∧ out w' =
         [ "Welcome to Timebeat SSH CLI Interface" +:+ nl;
           "Type 'help' for available commands" +:+ nl +:+ nl;
           "timebeat> "; "Goodbye!" +:+ nl +:+ nl;
           "timebeat> "; "Timebeat service restarted successfully" +:+ nl +:+ nl;
           "timebeat> " ]).
Proof.
  split; [|split; [|split; [|split]]].
  - reflexivity.
  - rewrite session_loop_line. reflexivity.
  - rewrite session_loop_line. reflexivity.
  - vm_compute. reflexivity.
  - vm_compute. reflexivity.
Qed.

End Server.

(** C2, where the code departs from the claim.  [enable] and [disable] both
    call [toggle_protocol], which flips the flag whatever it was.  On an
    entry that is enabled, [enable ptp] disables it, and [protocols] then
    shows it [DISABLED]; on an entry that is disabled, [disable ptp] enables
    it, and [protocols] shows it [ENABLED].  Saving and the tools succeed in
    both sessions. *)
Theorem enable_flips_an_enabled_entry :
  out (Scenario.handle_client
         [Line ("enable ptp" +:+ nl); Line ("protocols" +:+ nl)]
         (Scenario.world [Scenario.ptp] []))
  = [ "Welcome to Timebeat SSH CLI Interface" +:+ nl;
      "Type 'help' for available commands" +:+ nl +:+ nl;
      "timebeat> "; "Protocol PTP DISABLED in primary clocks" +:+ nl +:+ nl;
      "timebeat> ";
      "=== PRIMARY CLOCKS ===" +:+ nl +:+ "  PTP: DISABLED (eth0)" +:+ nl
        +:+ nl +:+ "=== SECONDARY CLOCKS ===" +:+ nl +:+ nl;
      "timebeat> " ]
  ∧ out (Scenario.handle_client
         [Line ("disable ptp" +:+ nl); Line ("protocols" +:+ nl)]
         (Scenario.world [Scenario.ptp_off] []))
  = [ "Welcome to Timebeat SSH CLI Interface" +:+ nl;
      "Type 'help' for available commands" +:+ nl +:+ nl;
      "timebeat> "; "Protocol PTP ENABLED in primary clocks" +:+ nl +:+ nl;
      "timebeat> ";
      "=== PRIMARY CLOCKS ===" +:+ nl +:+ "  PTP: ENABLED (eth1)" +:+ nl
        +:+ nl +:+ "=== SECONDARY CLOCKS ===" +:+ nl +:+ nl;
      "timebeat> " ].
Proof. split; vm_compute; reflexivity. Qed.

(** C3, where the code departs from the claim.  The test for the expected
    state is [expected in result], and the not-found text repeats the
    operator's words.  [enable ENABLED] on a document without such a protocol
    gets the not-found text from [toggle_protocol], finds [ENABLED] in it,
    restarts the service and returns both texts; the document is as before.
    [disable DISABLED] does the same. *)
Theorem restart_after_not_found :
  let w := Scenario.world [Scenario.ptp] [] in
  let enable := TimebeatSSHServer.enable_protocol
                  Scenario.tools_succeed Scenario.writes_succeed Scenario.dump in
  let disable := TimebeatSSHServer.disable_protocol
                  Scenario.tools_succeed Scenario.writes_succeed Scenario.dump in
  (TimebeatCLI.toggle_protocol Scenario.writes_succeed Scenario.dump "ENABLED" "primary" w).1
    = "Protocol ENABLED not found in primary clocks"
  ∧ (enable ["ENABLED"] w).1
    = Returned ("Protocol ENABLED not found in primary clocks" +:+ nl
                +:+ "Timebeat service restarted successfully")
  ∧ calls (enable ["ENABLED"] w).2 = [["systemctl"; "restart"; "timebeat"]]
  ∧ config (enable ["ENABLED"] w).2 = config w
  ∧ (disable ["DISABLED"] w).1
    = Returned ("Protocol DISABLED not found in primary clocks" +:+ nl
                +:+ "Timebeat service restarted successfully")
  ∧ calls (disable ["DISABLED"] w).2 = [["systemctl"; "restart"; "timebeat"]]
  ∧ config (disable ["DISABLED"] w).2 = config w.
Proof. cbv zeta. repeat split; vm_compute; reflexivity. Qed.

(** C7, where the code departs from the claim.  [logs] asks [journalctl]
    for 50 lines, [logs 7] for 7 and [logs abc] for 50.  But the guard is
    [isdigit], which accepts the superscript two, and [int] does not read
    it: on [logs ²] the handler raises, the session answers with the error
    line, and [journalctl] is not run at all, neither for a count nor for
    50 lines. *)
Theorem logs_superscript_raises :
  let w := Scenario.world [Scenario.ptp] [] in
  let logs := TimebeatSSHServer.show_logs Scenario.tools_succeed in
  let journalctl count := ["journalctl"; "-u"; "timebeat"; "-n"; count] in
  calls (logs [] w).2 = [journalctl "50"]
  ∧ calls (logs ["7"] w).2 = [journalctl "7"]
  ∧ calls (logs ["abc"] w).2 = [journalctl "50"]
  ∧ PyStr.isdigit "²" = true
  ∧ logs ["²"] w = (Raised "invalid literal for int() with base 10: '²'", w)
  ∧ (let w' := Scenario.handle_client [Line ("logs ²" +:+ nl)] w in
     calls w' = []
     ∧ out w' =
         [ "Welcome to Timebeat SSH CLI Interface" +:+ nl;
           "Type 'help' for available commands" +:+ nl +:+ nl;
           "timebeat> ";
           "Error executing command: invalid literal for int() with base 10: '²'"
             +:+ nl +:+ nl;
           "timebeat> " ]).
Proof. cbv zeta. repeat split; vm_compute; reflexivity. Qed.

(** ** Where a claim fails as stated *)

(** C5 is false as stated: when the save fails after the file was opened,
    [toggle_protocol] returns the save-failure text and the file is not what
    it was. *)
Lemma failed_save_changes_the_file :
  let w := Scenario.world [Scenario.ptp] [] in
  let r := TimebeatCLI.toggle_protocol Scenario.disk_full Scenario.dump "ptp" "primary" w in
  r.1 = "Failed to save configuration"
  ∧ disk w = Some "timebeat: on disk"
  ∧ disk r.2 = Some ""
  ∧ disk r.2 ≠ disk w.
Proof. cbv zeta. repeat split; try (vm_compute; reflexivity). vm_compute. discriminate. Qed.

(** C6 is false as stated: in a document read from a file with an alias,
    the first match and a later match of the primary clocks are one object,
    which is among the secondary clocks too.  After [toggle_protocol] the
    later match and the entry of the other clock class are flipped as well. *)
Lemma alias_of_first_match_is_flipped :
  let d := ScenarioAlias.document in
  let d' := (Shared.toggle_protocol (fun _ => true) "ptp" "primary" d).2 in
  let flipped := mkClock (Some "ptp") (Some true) (Some "eth0") None None in
  Shared.entries d "primary_clocks" = [Scenario.ptp; Scenario.ntp; Scenario.ptp]
  ∧ Shared.entries d "secondary_clocks" = [Scenario.ptp]
  ∧ Shared.entries d' "primary_clocks" = [flipped; Scenario.ntp; flipped]
  ∧ Shared.entries d' "secondary_clocks" = [flipped]
  ∧ Shared.entries d' "secondary_clocks" ≠ Shared.entries d "secondary_clocks".
Proof. cbv zeta. repeat split; try (vm_compute; reflexivity). vm_compute. discriminate. Qed.

(** C8 is false as stated: [get_status] on a non-zero exit status returns
    the tool's stdout, here empty, and nothing of its stderr. *)
Lemma get_status_drops_stderr :
  let w := Scenario.world [Scenario.ptp] [] in
  let text := (TimebeatCLI.get_status Scenario.unit_missing w).1 in
  Scenario.unit_missing 0 ["systemctl"; "status"; "timebeat"]
    = Completed (mkCompleted 4 "" "Unit timebeat.service could not be found.")
  ∧ text = ""
  ∧ PyStr.contains "Unit timebeat.service could not be found." text = false.
Proof. cbv zeta. repeat split; vm_compute; reflexivity. Qed.

(** C9 is false as stated: when [chrony] cannot be run and [timedatectl]
    can, the result is the error line alone; [timedatectl] is not run and its
    output is not in the result. *)
Lemma clock_status_drops_other_output :
  let w := Scenario.world [Scenario.ptp] [] in
  let r := TimebeatCLI.get_clock_sync_status Scenario.chrony_missing w in
  Scenario.chrony_missing 1 ["timedatectl"; "status"]
    = Completed (mkCompleted 0 "System clock synchronized: yes" "")
  ∧ r.1 = "Error getting clock sync status: [Errno 2] No such file or directory: 'chrony'"
  ∧ PyStr.contains "System clock synchronized: yes" r.1 = false
  ∧ calls r.2 = [["chrony"; "sources"]].
Proof. cbv zeta. repeat split; vm_compute; reflexivity. Qed.

(** C10 is false as stated: an entry without a [disable] key has one after
    two toggles, so the document is not the one it was. *)
Lemma toggle_twice_leaves_disable_key :
  let w := Scenario.world [Scenario.ptp] [] in
  let toggle := TimebeatCLI.toggle_protocol Scenario.writes_succeed Scenario.dump in
  let w2 := (toggle "ptp" "primary" (toggle "ptp" "primary" w).2).2 in
  get_clocks (config w) "primary_clocks" = [mkClock (Some "ptp") None (Some "eth0") None None]
  ∧ get_clocks (config w2) "primary_clocks"
    = [mkClock (Some "ptp") (Some false) (Some "eth0") None None]
  ∧ config w2 ≠ config w.
Proof.
  cbv zeta. split; [|split]; try (vm_compute; reflexivity).
  intros H. apply (f_equal (fun c => get_clocks c "primary_clocks")) in H.
  vm_compute in H. discriminate.
Qed.

(** ** The theorems at concrete inputs *)

(** C5 at a file that cannot be opened for writing. *)
Lemma toggle_protocol_save_failure_witness :
  let w := Scenario.world [Scenario.ntp; Scenario.ptp] [] in
  let r := TimebeatCLI.toggle_protocol Scenario.read_only Scenario.dump "PTP" "primary" w in
  r.1 = "Failed to save configuration"
  ∧ get_clocks (config r.2) "primary_clocks"
    = [Scenario.ntp; mkClock (Some "ptp") (Some true) (Some "eth0") None None]
  ∧ disk r.2 = Some "timebeat: on disk".
Proof.
  cbv zeta.
  destruct (toggle_protocol_save_failure Scenario.read_only Scenario.dump "PTP" "primary"
              (Scenario.world [Scenario.ntp; Scenario.ptp] [])
              [Scenario.ntp] [] Scenario.ptp)
    as (Htext & Hmem & Hopen & _ & _);
    [reflexivity | repeat constructor | reflexivity | discriminate |].
  split; [exact Htext|]. split; [exact Hmem|]. exact (Hopen _ eq_refl).
Defined.

(** The same at a primary list with two [ptp] entries, and one more in the
    secondary list. *)
Lemma toggle_protocol_flips_first_match_only_witness :
  let w := Scenario.world [Scenario.ntp; Scenario.ptp; Scenario.ptp_off] [Scenario.ptp] in
  let w' := (TimebeatCLI.toggle_protocol Scenario.writes_succeed Scenario.dump
               "PTP" "primary" w).2 in
  get_clocks (config w') "primary_clocks"
    = [Scenario.ntp; mkClock (Some "ptp") (Some true) (Some "eth0") None None;
       Scenario.ptp_off]
  ∧ get_clocks (config w') "secondary_clocks" = [Scenario.ptp].
Proof.
  cbv zeta.
  destruct (toggle_protocol_flips_first_match_only Scenario.writes_succeed Scenario.dump
              "PTP" "primary"
              (Scenario.world [Scenario.ntp; Scenario.ptp; Scenario.ptp_off] [Scenario.ptp])
              [Scenario.ntp] [Scenario.ptp_off] Scenario.ptp)
    as (Hfirst & Hother & _);
    [reflexivity | repeat constructor | reflexivity |].
  split; [exact Hfirst|]. exact (Hother "secondary_clocks" ltac:(discriminate)).
Defined.

(** C6 at the document with an alias.  For [ptp] the first match is the
    object that is in three places, and every place reads flipped.  For [ntp]
    the match is an object in one place, and the change is the one on the
    tree. *)
Lemma toggle_protocol_flips_one_object_witness :
  let d := ScenarioAlias.document in
  let ptp' := mkClock (Some "ptp") (Some true) (Some "eth0") None None in
  let ntp' := mkClock (Some "ntp") (Some false) None (Some "10.0.0.1") None in
  (let d' := (Shared.toggle_protocol (fun _ => false) "PTP" "primary" d).2 in
   Shared.objects d' 0 = ptp' ∧ Shared.objects d' 1 = Scenario.ntp
   ∧ Shared.entries d' "primary_clocks" = [ptp'; Scenario.ntp; ptp'])
  ∧ (let d' := (Shared.toggle_protocol (fun _ => true) "ntp" "primary" d).2 in
     Shared.entries d' "primary_clocks" = [Scenario.ptp; ntp'; Scenario.ptp]
     ∧ Shared.entries d' "secondary_clocks" = [Scenario.ptp]
     ∧ config (TimebeatCLI.toggle_protocol Scenario.writes_succeed Scenario.dump
                 "ntp" "primary"
                 (mkWorld (Some (Shared.tree d)) None [] 0 [] [] None)).2
       = Some (Shared.tree d')).
Proof.
  cbv zeta. split.
  - destruct (toggle_protocol_flips_one_object Scenario.writes_succeed Scenario.dump
                (fun _ => false) "PTP" "primary" ScenarioAlias.document [] [1; 0] 0)
      as (_ & Hflip & Hrest & Hentries & _);
      [reflexivity | repeat constructor | reflexivity |].
    split; [exact Hflip|]. split; [exact (Hrest 1 ltac:(discriminate))|].
    exact (Hentries "primary_clocks").
  - destruct (toggle_protocol_flips_one_object Scenario.writes_succeed Scenario.dump
                (fun _ => true) "ntp" "primary" ScenarioAlias.document [0] [0] 1)
      as (_ & _ & _ & _ & Hother & Hlist & Htree);
      [reflexivity | repeat constructor | reflexivity |].
    assert (1 ∉ [0]) as Hnot
      by (apply not_elem_of_cons; split; [discriminate|apply not_elem_of_nil]).
    split; [exact (Hlist Hnot Hnot)|].
    split; [exact (Hother "secondary_clocks" Hnot)|].
    apply (Htree Hnot Hnot); [|reflexivity].
    intros key Hkey. change ("primary" +:+ "_clocks") with "primary_clocks" in Hkey.
    unfold Shared.refs, ScenarioAlias.document. cbn [Shared.clock_lists].
    destruct (decide (key = "secondary_clocks")) as [->|Hsecondary].
    + rewrite lookup_insert_eq. exact Hnot.
    + rewrite !lookup_insert_ne by done. rewrite lookup_empty. apply not_elem_of_nil.
Defined.

(** C8 at a tool that succeeds and at a unit that does not exist. *)
Lemma service_actions_results_witness :
  let w := Scenario.world [Scenario.ptp] [] in
  (TimebeatCLI.start_service Scenario.tools_succeed w).1
    = "Timebeat service started successfully"
  ∧ (TimebeatCLI.restart_service Scenario.unit_missing w).1
    = "Failed to restart timebeat: Unit timebeat.service could not be found."
  ∧ (TimebeatCLI.get_status Scenario.unit_missing w).1 = "".
Proof.
  cbv zeta.
  pose proof (service_actions_results Scenario.tools_succeed
                (Scenario.world [Scenario.ptp] [])) as Hok.
  pose proof (service_actions_results Scenario.unit_missing
                (Scenario.world [Scenario.ptp] [])) as Hmissing.
  cbv zeta in Hok, Hmissing.
  destruct Hok as (Hstart & _).
  destruct Hmissing as (_ & _ & Hrestart & Hstatus & _).
  split; [exact (proj1 (Hstart _ eq_refl) eq_refl)|].
  split; [exact (proj1 (proj2 (Hrestart _ eq_refl) ltac:(discriminate)))|].
  exact (Hstatus _ eq_refl).
Defined.

(** C9 at two tools that complete and at a missing [chrony]. *)
Lemma get_clock_sync_status_results_witness :
  let w := Scenario.world [Scenario.ptp] [] in
  (TimebeatCLI.get_clock_sync_status Scenario.unit_missing w).1 = nl
  ∧ (TimebeatCLI.get_clock_sync_status Scenario.chrony_missing w).1
    = "Error getting clock sync status: [Errno 2] No such file or directory: 'chrony'".
Proof.
  cbv zeta.
  pose proof (get_clock_sync_status_results Scenario.unit_missing
                (Scenario.world [Scenario.ptp] [])) as Hboth.
  pose proof (get_clock_sync_status_results Scenario.chrony_missing
                (Scenario.world [Scenario.ptp] [])) as Hfirst.
  cbv zeta in Hboth, Hfirst.
  destruct Hboth as (Hboth & _). destruct Hfirst as (_ & Hfirst & _).
  split; [exact (proj1 (Hboth _ _ eq_refl eq_refl))|].
  exact (proj1 (Hfirst _ eq_refl)).
Defined.

(** C10 at an entry that carries [disable: true]. *)
Lemma toggle_protocol_twice_witness :
  let w := Scenario.world [Scenario.ptp_off] [] in
  let toggle := TimebeatCLI.toggle_protocol Scenario.writes_succeed Scenario.dump in
  let r1 := toggle "ptp" "primary" w in
  let r2 := toggle "ptp" "primary" r1.2 in
  r1.1 = "Protocol PTP ENABLED in primary clocks"
  ∧ r2.1 = "Protocol PTP DISABLED in primary clocks"
  ∧ config r2.2 = config w.
Proof.
  cbv zeta.
  destruct (toggle_protocol_twice Scenario.writes_succeed Scenario.dump "ptp" "primary"
              (Scenario.world [Scenario.ptp_off] []) [] [] Scenario.ptp_off)
    as (Hfirst & Hsecond & _ & _ & Hsame);
    [reflexivity | reflexivity | constructor | reflexivity |].
  split; [exact Hfirst|]. split; [exact Hsecond|]. exact (Hsame (ex_intro _ true eq_refl)).
Defined.

(** * Further properties of the code *)

(** ** More on strings *)

Lemma startswith_prefix (sub rest : string) : PyStr.startswith sub (sub +:+ rest) = true.
Proof.
  induction sub as [|c sub IH]; [done|].
  change (Ascii.eqb c c && PyStr.startswith sub (sub +:+ rest) = true).
  by rewrite Ascii.eqb_refl, IH.
Qed.

Lemma startswith_contains (sub s : string) :
  PyStr.startswith sub s = true → PyStr.contains sub s = true.
Proof. intros H. destruct s; simpl; by rewrite H. Qed.

Lemma contains_cons (sub : string) (c : ascii) (s : string) :
  PyStr.contains sub s = true → PyStr.contains sub (String c s) = true.
Proof. intros H. simpl. rewrite H. apply orb_true_r. Qed.

Lemma contains_app_r (a sub t : string) :
  PyStr.contains sub t = true → PyStr.contains sub (a +:+ t) = true.
Proof.
  intros H. induction a as [|c a IH]; [done|].
  change (PyStr.contains sub (String c (a +:+ t)) = true). by apply contains_cons.
Qed.

Lemma toggled_text_names_state (protocol clock_type : string) (was_disabled : bool) :
  PyStr.contains (if was_disabled then "ENABLED" else "DISABLED")
    (toggled_text protocol clock_type was_disabled) = true.
Proof.
  unfold toggled_text. do 3 apply contains_app_r.
  destruct was_disabled; simpl negb; cbv iota;
    apply startswith_contains, startswith_prefix.
Qed.

(** ** [toggle_protocol] and the handlers built on it *)

Lemma first_match_none (protocol : string) (i : nat) (clocks : list ClockEntry) :
  Forall (fun e => matches protocol e = false) clocks →
  first_match protocol i clocks = None.
Proof.
  intros H. revert i. induction H as [|e l He _ IH]; intros i; simpl; [done|].
  by rewrite He.
Qed.

(** [restart_service] runs its one tool and changes nothing else. *)
Lemma restart_service_world (subprocess_run : nat -> list string -> run_outcome)
    (w : World) :
  (TimebeatCLI.restart_service subprocess_run w).2
  = add_call ["systemctl"; "restart"; "timebeat"] w.
Proof.
  unfold TimebeatCLI.restart_service, TimebeatCLI.run, bind, ret.
  case_run; [|done].
  by match goal with |- context [(returncode ?r =? 0)%Z] =>
       destruct (returncode r =? 0)%Z end.
Qed.

Section ToggleHandlers.

Variable subprocess_run : nat -> list string -> run_outcome.
Variable file_write : nat -> write_outcome.
Variable yaml_dump : option ConfigDocument -> string.

Local Abbreviation toggle := (TimebeatCLI.toggle_protocol file_write yaml_dump).
Local Abbreviation enable :=
  (TimebeatSSHServer.enable_protocol subprocess_run file_write yaml_dump).
Local Abbreviation disable :=
  (TimebeatSSHServer.disable_protocol subprocess_run file_write yaml_dump).

(** X1. When the document is loaded, the list of the class can be read
    (a missing key on the way counts as an empty list, so the class may be
    one the document does not have) and no entry of it matches the name,
    [toggle_protocol] returns the not-found text and changes nothing: the
    document, the file, the count of saves and the log are as before. *)
Theorem toggle_protocol_not_found (protocol clock_type : string) (w : World)
    (clocks : list ClockEntry) :
  loaded (config w) = true →
  clocks_at (config w) (clock_type +:+ "_clocks") = inr clocks →
  Forall (fun e => matches protocol e = false) clocks →
  toggle protocol clock_type w
  = ("Protocol " +:+ protocol +:+ " not found in " +:+ clock_type +:+ " clocks", w).
Proof.
  intros Hl Hread Hnone.
  unfold TimebeatCLI.toggle_protocol, bind, gets, ret.
  rewrite Hl. simpl negb. cbv iota. rewrite Hread.
  by rewrite (first_match_none _ 0 _ Hnone).
Qed.

(** X2. While no document is loaded ([None], or an empty dictionary),
    [toggle_protocol], [list_protocols] and [show_config] answer
    [Configuration not loaded] and change nothing; [enable] and [disable]
    pass that answer on without restarting the service. *)
Theorem not_loaded_is_reported (w : World) :
  loaded (config w) = false →
  (∀ protocol clock_type,
     toggle protocol clock_type w = ("Configuration not loaded", w))
  ∧ TimebeatCLI.list_protocols w = ("Configuration not loaded", w)
  ∧ (∀ args,
       TimebeatSSHServer.show_config yaml_dump args w
       = (Returned "Configuration not loaded", w))
  ∧ (∀ protocol more,
       enable (protocol :: more) w = (Returned "Configuration not loaded", w)
       ∧ disable (protocol :: more) w = (Returned "Configuration not loaded", w)).
Proof.
  intros Hl.
  assert (∀ protocol clock_type,
            toggle protocol clock_type w = ("Configuration not loaded", w)) as Htoggle.
  { intros. unfold TimebeatCLI.toggle_protocol, bind, gets, ret. by rewrite Hl. }
  split; [done|]. split.
  { unfold TimebeatCLI.list_protocols, bind, gets, ret. by rewrite Hl. }
  split.
  { intros. unfold TimebeatSSHServer.show_config, bind, gets, ret. by rewrite Hl. }
  intros protocol more.
  unfold TimebeatSSHServer.enable_protocol, TimebeatSSHServer.disable_protocol, bind.
  by rewrite Htoggle.
Qed.

(** [toggle_protocol] for a matching entry when the save succeeds. *)
Lemma toggle_protocol_found_saved (protocol clock_type : string) (w : World)
    (pre post : list ClockEntry) (c : ClockEntry) :
  get_clocks (config w) (clock_type +:+ "_clocks") = pre ++ c :: post →
  Forall (fun e => matches protocol e = false) pre →
  matches protocol c = true →
  file_write (saves w) = WriteOk →
  let flipped :=
    put_clocks (clock_type +:+ "_clocks")
      (pre ++ set_disable (negb (disabled c)) c :: post) (config w) in
  toggle protocol clock_type w
  = (toggled_text protocol clock_type (disabled c),
     count_save (set_disk (Some (yaml_dump flipped)) (set_config flipped w))).
Proof.
  intros Hget Hpre Hc Hok flipped.
  rewrite (toggle_protocol_found _ _ _ _ _ _ _ _ Hget Hpre Hc). cbv zeta.
  unfold TimebeatCLI.save_config. simpl saves. by rewrite Hok.
Qed.

(** [toggle_protocol] for a matching entry when the save fails. *)
Lemma toggle_protocol_found_unsaved (protocol clock_type : string) (w : World)
    (pre post : list ClockEntry) (c : ClockEntry) :
  get_clocks (config w) (clock_type +:+ "_clocks") = pre ++ c :: post →
  Forall (fun e => matches protocol e = false) pre →
  matches protocol c = true →
  file_write (saves w) ≠ WriteOk →
  ∃ w', toggle protocol clock_type w = ("Failed to save configuration", w')
        ∧ calls w' = calls w.
Proof.
  intros Hget Hpre Hc Hfail.
  rewrite (toggle_protocol_found _ _ _ _ _ _ _ _ Hget Hpre Hc). cbv zeta.
  unfold TimebeatCLI.save_config. simpl saves.
  destruct (file_write (saves w)); [done| |]; by eexists.
Qed.

(** X3. When the save succeeds, [toggle_protocol] for a matching entry
    reports the state the entry is in now, and the file holds the dump of the
    document as it is in memory after the flip.  The file was written once;
    no tool was run, and nothing went to the session output or to the log. *)
Theorem toggle_protocol_saved (protocol clock_type : string) (w : World)
    (pre post : list ClockEntry) (c : ClockEntry) :
  get_clocks (config w) (clock_type +:+ "_clocks") = pre ++ c :: post →
  Forall (fun e => matches protocol e = false) pre →
  matches protocol c = true →
  file_write (saves w) = WriteOk →
  let r := toggle protocol clock_type w in
  r.1 = toggled_text protocol clock_type (disabled c)
  ∧ disk r.2 = Some (yaml_dump (config r.2))
  ∧ saves r.2 = S (saves w)
  ∧ calls r.2 = calls w ∧ out r.2 = out w ∧ log r.2 = log w.
Proof.
  intros Hget Hpre Hc Hok. cbv zeta.
  by rewrite (toggle_protocol_found_saved _ _ _ _ _ _ Hget Hpre Hc Hok).
Qed.

(** X4. [enable] on an entry that is disabled, and [disable] on an entry
    that is enabled, do what their names say when the save succeeds: the
    first matching entry of the class named (or of [primary]) gets the flag,
    the file holds the new document, [systemctl restart timebeat] is the one
    tool run, and the answer is the toggle text, a line feed and the restart
    text. *)
Theorem enable_disable_then_restart (protocol : string) (more : list string)
    (w : World) (pre post : list ClockEntry) (c : ClockEntry) :
  let clock_type := clock_type_of (protocol :: more) in
  let restart_text w' := (TimebeatCLI.restart_service subprocess_run w').1 in
  get_clocks (config w) (clock_type +:+ "_clocks") = pre ++ c :: post →
  Forall (fun e => matches protocol e = false) pre →
  matches protocol c = true →
  file_write (saves w) = WriteOk →
  (disabled c = true →
     let r := enable (protocol :: more) w in
     r.1 = Returned ("Protocol " +:+ PyStr.upper protocol +:+ " ENABLED in "
                     +:+ clock_type +:+ " clocks" +:+ nl
                     +:+ restart_text (toggle protocol clock_type w).2)
     ∧ calls r.2 = calls w ++ [["systemctl"; "restart"; "timebeat"]]
     ∧ get_clocks (config r.2) (clock_type +:+ "_clocks")
       = pre ++ set_disable false c :: post
     ∧ disk r.2 = Some (yaml_dump (config r.2)))
  ∧ (disabled c = false →
     let r := disable (protocol :: more) w in
     r.1 = Returned ("Protocol " +:+ PyStr.upper protocol +:+ " DISABLED in "
                     +:+ clock_type +:+ " clocks" +:+ nl
                     +:+ restart_text (toggle protocol clock_type w).2)
     ∧ calls r.2 = calls w ++ [["systemctl"; "restart"; "timebeat"]]
     ∧ get_clocks (config r.2) (clock_type +:+ "_clocks")
       = pre ++ set_disable true c :: post
     ∧ disk r.2 = Some (yaml_dump (config r.2))).
Proof.
  intros clock_type restart_text Hget Hpre Hc Hok.
  assert (get_clocks (config w) (clock_type +:+ "_clocks") ≠ []) as Hne
    by (rewrite Hget; by destruct pre).
  pose proof (toggle_protocol_found_saved _ _ _ _ _ _ Hget Hpre Hc Hok) as Ht.
  cbv zeta in Ht.
  pose proof (toggled_text_names_state protocol clock_type (disabled c)) as Hword.
  assert (∀ b : bool, toggled_text protocol clock_type b
            = "Protocol " +:+ PyStr.upper protocol
              +:+ (if b then " ENABLED in " else " DISABLED in ")
              +:+ clock_type +:+ " clocks") as Htext by (by intros []).
  split; intros Hd; rewrite Hd in *; cbv zeta.
  - unfold TimebeatSSHServer.enable_protocol, bind, ret.
    change (match more with c0 :: _ => c0 | [] => "primary" end) with clock_type.
    unfold restart_text. rewrite Ht. cbv iota. rewrite Hword. cbn [snd].
    match goal with |- context [TimebeatCLI.restart_service subprocess_run ?w1] =>
      pose proof (restart_service_world subprocess_run w1) as Hw2;
      destruct (TimebeatCLI.restart_service subprocess_run w1) as [restart_result w2]
    end.
    cbn [fst snd] in *. subst w2.
    split; [by rewrite Htext, !append_assoc|]. split; [done|].
    split; [by apply get_clocks_put|done].
  - unfold TimebeatSSHServer.disable_protocol, bind, ret.
    change (match more with c0 :: _ => c0 | [] => "primary" end) with clock_type.
    unfold restart_text. rewrite Ht. cbv iota. rewrite Hword. cbn [snd].
    match goal with |- context [TimebeatCLI.restart_service subprocess_run ?w1] =>
      pose proof (restart_service_world subprocess_run w1) as Hw2;
      destruct (TimebeatCLI.restart_service subprocess_run w1) as [restart_result w2]
    end.
    cbn [fst snd] in *. subst w2.
    split; [by rewrite Htext, !append_assoc|]. split; [done|].
    split; [by apply get_clocks_put|done].
Qed.

(** X5. When the save fails, [enable] and [disable] for a matching entry
    answer with the save-failure text alone and run no tool: the service is
    not restarted. *)
Theorem failed_save_skips_restart (protocol : string) (more : list string)
    (w : World) (pre post : list ClockEntry) (c : ClockEntry) :
  let clock_type := clock_type_of (protocol :: more) in
  get_clocks (config w) (clock_type +:+ "_clocks") = pre ++ c :: post →
  Forall (fun e => matches protocol e = false) pre →
  matches protocol c = true →
  file_write (saves w) ≠ WriteOk →
  (enable (protocol :: more) w).1 = Returned "Failed to save configuration"
  ∧ calls (enable (protocol :: more) w).2 = calls w
  ∧ (disable (protocol :: more) w).1 = Returned "Failed to save configuration"
  ∧ calls (disable (protocol :: more) w).2 = calls w.
Proof.
  intros clock_type Hget Hpre Hc Hfail.
  destruct (toggle_protocol_found_unsaved _ _ _ _ _ _ Hget Hpre Hc Hfail)
    as (w' & Ht & Hcalls).
  unfold TimebeatSSHServer.enable_protocol, TimebeatSSHServer.disable_protocol, bind, ret.
  change (match more with c0 :: _ => c0 | [] => "primary" end) with clock_type.
  by rewrite Ht.
Qed.

(** X14. When the document is loaded and the list of the class cannot be
    read (a key on the way to it, or the key of the list, holds a value the
    program cannot use: a key left empty in the file holds [None]), the
    reading raises and [toggle_protocol] returns the text of the exception
    after [Error toggling protocol: ], having changed nothing.  [enable] and
    [disable] pass that answer on and restart nothing, unless the answer has
    the word they look for.  [list_protocols] reads the primary list, then
    the secondary list, and returns the text of the first exception after
    [Error listing protocols: ]. *)
Theorem unreadable_clocks_are_reported (protocol : string) (more : list string)
    (e : string) (w : World) :
  let clock_type := clock_type_of (protocol :: more) in
  let text := "Error toggling protocol: " +:+ e in
  loaded (config w) = true →
  clocks_at (config w) (clock_type +:+ "_clocks") = inl e →
  toggle protocol clock_type w = (text, w)
  ∧ (PyStr.contains "ENABLED" text = false →
       enable (protocol :: more) w = (Returned text, w))
  ∧ (PyStr.contains "DISABLED" text = false →
       disable (protocol :: more) w = (Returned text, w))
  ∧ (clock_type = "primary"
     ∨ (clock_type = "secondary"
        ∧ ∃ primary, clocks_at (config w) "primary_clocks" = inr primary) →
     TimebeatCLI.list_protocols w = ("Error listing protocols: " +:+ e, w)).
Proof.
  intros clock_type text Hl Hread.
  assert (toggle protocol clock_type w = (text, w)) as Ht.
  { unfold TimebeatCLI.toggle_protocol, bind, gets, ret.
    rewrite Hl. simpl negb. cbv iota. by rewrite Hread. }
  split; [exact Ht|]. split; [|split].
  - intros Hword.
    unfold TimebeatSSHServer.enable_protocol, bind, ret.
    change (match more with c0 :: _ => c0 | [] => "primary" end) with clock_type.
    by rewrite Ht, Hword.
  - intros Hword.
    unfold TimebeatSSHServer.disable_protocol, bind, ret.
    change (match more with c0 :: _ => c0 | [] => "primary" end) with clock_type.
    by rewrite Ht, Hword.
  - unfold TimebeatCLI.list_protocols, bind, gets, ret.
    rewrite Hl. simpl negb. cbv iota.
    intros [Hclass|[Hclass [primary Hprimary]]]; rewrite Hclass in Hread.
    + change ("primary" +:+ "_clocks") with "primary_clocks" in Hread.
      by rewrite Hread.
    + change ("secondary" +:+ "_clocks") with "secondary_clocks" in Hread.
      by rewrite Hprimary, Hread.
Qed.

End ToggleHandlers.

(** ** What [toggle_protocol] can change *)

Lemma first_match_found (protocol : string) (clocks : list ClockEntry) (i j : nat)
    (c : ClockEntry) :
  first_match protocol i clocks = Some (j, c) →
  ∃ pre post, clocks = pre ++ c :: post
              ∧ Forall (fun e => matches protocol e = false) pre
              ∧ matches protocol c = true.
Proof.
  revert i. induction clocks as [|e clocks IH]; intros i; simpl; [done|].
  destruct (matches protocol e) eqn:He.
  - intros [= <- <-]. by exists [], clocks.
  - intros (pre & post & -> & Hpre & Hc)%IH.
    exists (e :: pre), post. split; [done|]. split; [by constructor|done].
Qed.

Lemma first_match_same_name (p1 p2 : string) (i : nat) (clocks : list ClockEntry) :
  PyStr.lower p1 = PyStr.lower p2 →
  first_match p1 i clocks = first_match p2 i clocks.
Proof.
  intros Hp. revert i. induction clocks as [|e clocks IH]; intros i; simpl; [done|].
  unfold matches. rewrite Hp. by rewrite IH.
Qed.

Section ToggleFrame.

Variable file_write : nat -> write_outcome.
Variable yaml_dump : option ConfigDocument -> string.

Local Abbreviation toggle := (TimebeatCLI.toggle_protocol file_write yaml_dump).

(** X6. [toggle_protocol] matches the protocol name without regard to the
    case of its letters: two names that are the same once their ASCII
    letters are lowercased lead to the same state, document, file and log
    alike. *)
Theorem toggle_protocol_ignores_case (p1 p2 clock_type : string) (w : World) :
  PyStr.lower p1 = PyStr.lower p2 →
  (toggle p1 clock_type w).2 = (toggle p2 clock_type w).2.
Proof.
  intros Hp.
  unfold TimebeatCLI.toggle_protocol, bind, gets, modify, ret.
  destruct (loaded (config w)); cbn [negb]; cbv beta iota; [|done].
  destruct (clocks_at (config w) (clock_type +:+ "_clocks")) as [e|clocks]; [done|].
  rewrite (first_match_same_name p1 p2 0 _ Hp).
  destruct (first_match p2 0 clocks) as [[i c]|]; [|done].
  cbv beta iota zeta.
  by destruct (TimebeatCLI.save_config _ _ _) as [[|] w'].
Qed.

(** X7. Whatever its arguments and whatever the save does, [toggle_protocol]
    changes no key of any entry other than [disable]: under every key the
    list keeps its length, its order, and the protocol, interface, address
    and device of each entry; the other sections of the document and whether
    it counts as loaded are as before. *)
Theorem toggle_protocol_changes_flags_only (protocol clock_type key : string)
    (w : World) :
  let w' := (toggle protocol clock_type w).2 in
  map clock_identity (get_clocks (config w') key)
    = map clock_identity (get_clocks (config w) key)
  ∧ other_sections <$> config w' = other_sections <$> config w
  ∧ loaded (config w') = loaded (config w).
Proof.
  cbv zeta.
  destruct (loaded (config w)) eqn:Hl.
  - destruct (first_match protocol 0 (get_clocks (config w) (clock_type +:+ "_clocks")))
      as [[i c]|] eqn:Hfm.
    + destruct (first_match_found _ _ _ _ _ Hfm) as (pre & post & Hget & Hpre & Hc).
      assert (get_clocks (config w) (clock_type +:+ "_clocks") ≠ []) as Hne
        by (rewrite Hget; by destruct pre).
      rewrite (toggle_protocol_found _ _ _ _ _ _ _ _ Hget Hpre Hc). cbv zeta.
      match goal with |- context [TimebeatCLI.save_config _ _ ?w1] =>
        pose proof (save_config_keeps_config file_write yaml_dump w1) as Hcfg;
        destruct (TimebeatCLI.save_config file_write yaml_dump w1) as [saved w2]
      end.
      cbn [fst snd config set_config] in *. rewrite Hcfg.
      split; [|split].
      * destruct (decide (key = clock_type +:+ "_clocks")) as [->|Hkey].
        -- rewrite get_clocks_put by done. rewrite Hget, !map_app. done.
        -- by rewrite get_clocks_put_ne.
      * apply other_sections_put.
      * apply (get_clocks_loaded _ (clock_type +:+ "_clocks")).
        rewrite get_clocks_put by done. by destruct pre.
    + unfold TimebeatCLI.toggle_protocol, bind, gets, ret.
      rewrite Hl. simpl negb. cbv iota. unfold get_clocks in Hfm.
      destruct (clocks_at (config w) (clock_type +:+ "_clocks")); [done|].
      by rewrite Hfm.
  - unfold TimebeatCLI.toggle_protocol, bind, gets, ret. by rewrite Hl.
Qed.

End ToggleFrame.

(** ** System actions and the configuration file *)

Section Actions.

Variable subprocess_run : nat -> list string -> run_outcome.

Lemma get_status_world (w : World) :
  (TimebeatCLI.get_status subprocess_run w).2
  = add_call ["systemctl"; "status"; "timebeat"] w.
Proof. unfold TimebeatCLI.get_status, TimebeatCLI.run, bind, ret. by case_run. Qed.

Lemma start_service_world (w : World) :
  (TimebeatCLI.start_service subprocess_run w).2
  = add_call ["systemctl"; "start"; "timebeat"] w.
Proof.
  unfold TimebeatCLI.start_service, TimebeatCLI.run, bind, ret.
  case_run; [|done].
  by match goal with |- context [(returncode ?r =? 0)%Z] =>
       destruct (returncode r =? 0)%Z end.
Qed.

Lemma stop_service_world (w : World) :
  (TimebeatCLI.stop_service subprocess_run w).2
  = add_call ["systemctl"; "stop"; "timebeat"] w.
Proof.
  unfold TimebeatCLI.stop_service, TimebeatCLI.run, bind, ret.
  case_run; [|done].
  by match goal with |- context [(returncode ?r =? 0)%Z] =>
       destruct (returncode r =? 0)%Z end.
Qed.

Lemma get_logs_world (lines : N) (w : World) :
  (TimebeatCLI.get_logs subprocess_run lines w).2
  = add_call ["journalctl"; "-u"; "timebeat"; "-n"; PyStr.str lines] w.
Proof. unfold TimebeatCLI.get_logs, TimebeatCLI.run, bind, ret. by case_run. Qed.

Lemma get_clock_sync_status_world (w : World) :
  (TimebeatCLI.get_clock_sync_status subprocess_run w).2
  = match subprocess_run (length (calls w)) ["chrony"; "sources"] with
    | RunRaises _ => add_call ["chrony"; "sources"] w
    | Completed _ =>
        add_call ["timedatectl"; "status"] (add_call ["chrony"; "sources"] w)
    end.
Proof.
  unfold TimebeatCLI.get_clock_sync_status, TimebeatCLI.run, bind, ret.
  case_run; [|done]. cbv beta iota zeta.
  by destruct (subprocess_run _ ["timedatectl"; "status"]).
Qed.

(** X8. The system actions do nothing but run their tool: after
    [get_status], [start_service], [stop_service], [restart_service] and
    [get_logs] the state is the one before with one more tool run, and after
    [get_clock_sync_status] with [chrony sources] and, unless running it
    raised, [timedatectl status] after it.  The document, the file and the
    session output are never touched. *)
Theorem system_actions_only_run_tools (w : World) :
  let systemctl verb := ["systemctl"; verb; "timebeat"] in
  (TimebeatCLI.get_status subprocess_run w).2 = add_call (systemctl "status") w
  ∧ (TimebeatCLI.start_service subprocess_run w).2 = add_call (systemctl "start") w
  ∧ (TimebeatCLI.stop_service subprocess_run w).2 = add_call (systemctl "stop") w
  ∧ (TimebeatCLI.restart_service subprocess_run w).2 = add_call (systemctl "restart") w
  ∧ (∀ lines, (TimebeatCLI.get_logs subprocess_run lines w).2
              = add_call ["journalctl"; "-u"; "timebeat"; "-n"; PyStr.str lines] w)
  ∧ (TimebeatCLI.get_clock_sync_status subprocess_run w).2
    = match subprocess_run (length (calls w)) ["chrony"; "sources"] with
      | RunRaises _ => add_call ["chrony"; "sources"] w
      | Completed _ =>
          add_call ["timedatectl"; "status"] (add_call ["chrony"; "sources"] w)
      end.
Proof.
  cbv zeta.
  split; [apply get_status_world|]. split; [apply start_service_world|].
  split; [apply stop_service_world|]. split; [apply restart_service_world|].
  split; [intros lines; apply get_logs_world|apply get_clock_sync_status_world].
Qed.


End Actions.

Section Reload.

Variable file_write : nat -> write_outcome.
Variable yaml_dump : option ConfigDocument -> string.
Variable yaml_safe_load : string -> string + option ConfigDocument.

Local Abbreviation toggle := (TimebeatCLI.toggle_protocol file_write yaml_dump).
Local Abbreviation reload := (TimebeatSSHServer.reload_config yaml_safe_load).

(** X9. [reload] either answers that the configuration was reloaded, and then
    the document in memory is what the file parsed to; or it answers that
    reloading failed, and then the document in memory is the one from before
    and one line went to the log.  It never changes the file, runs no tool
    and does not restart the service. *)
Theorem reload_config_outcomes (args : list string) (w : World) :
  let r := reload args w in
  ((r.1 = Returned "Configuration reloaded successfully"
    ∧ ∃ text, disk w = Some text ∧ yaml_safe_load text = inr (config r.2))
   ∨ (r.1 = Returned "Failed to reload configuration"
      ∧ config r.2 = config w
      ∧ length (log r.2) = S (length (log w))))
  ∧ disk r.2 = disk w ∧ calls r.2 = calls w
  ∧ saves r.2 = saves w ∧ out r.2 = out w.
Proof.
  cbv zeta. unfold TimebeatSSHServer.reload_config, TimebeatCLI.load_config, bind, ret.
  destruct (disk w) as [text|] eqn:Hdisk.
  - destruct (yaml_safe_load text) as [e|c] eqn:Hparse; cbn.
    + split; [right|done]. split; [done|]. split; [done|].
      rewrite length_app. simpl. lia.
    + split; [left|by rewrite Hdisk]. split; [done|]. by exists text.
  - cbn. split; [right|by rewrite Hdisk]. split; [done|]. split; [done|].
    rewrite length_app. simpl. lia.
Qed.

(** X10. After a toggle that was saved, [reload] brings back the very state
    the toggle left, provided PyYAML reads back the document it dumped: the
    flip survives a reload. *)
Theorem reload_after_saved_toggle (protocol clock_type : string) (args : list string)
    (w : World) (pre post : list ClockEntry) (c : ClockEntry) :
  get_clocks (config w) (clock_type +:+ "_clocks") = pre ++ c :: post →
  Forall (fun e => matches protocol e = false) pre →
  matches protocol c = true →
  file_write (saves w) = WriteOk →
  let w1 := (toggle protocol clock_type w).2 in
  yaml_safe_load (yaml_dump (config w1)) = inr (config w1) →
  reload args w1 = (Returned "Configuration reloaded successfully", w1).
Proof.
  intros Hget Hpre Hc Hok. cbv zeta.
  rewrite (toggle_protocol_found_saved _ _ _ _ _ _ _ _ Hget Hpre Hc Hok).
  cbn [snd]. intros Hround.
  unfold TimebeatSSHServer.reload_config, TimebeatCLI.load_config, bind, ret.
  cbn [disk count_save set_disk set_config config] in *. by rewrite Hround.
Qed.

(** X11. After a toggle whose save failed on opening the file, the document
    in memory has the flip and the file does not; [reload] then replaces the
    document by what the file parses to, so the flip is gone. *)
Theorem reload_after_failed_save (protocol clock_type : string) (args : list string)
    (w : World) (pre post : list ClockEntry) (c : ClockEntry)
    (e text : string) (on_file : option ConfigDocument) :
  get_clocks (config w) (clock_type +:+ "_clocks") = pre ++ c :: post →
  Forall (fun e => matches protocol e = false) pre →
  matches protocol c = true →
  file_write (saves w) = OpenFails e →
  disk w = Some text →
  yaml_safe_load text = inr on_file →
  let w1 := (toggle protocol clock_type w).2 in
  get_clocks (config w1) (clock_type +:+ "_clocks")
    = pre ++ set_disable (negb (disabled c)) c :: post
  ∧ (reload args w1).1 = Returned "Configuration reloaded successfully"
  ∧ config (reload args w1).2 = on_file.
Proof.
  intros Hget Hpre Hc Hfail Hdisk Hparse. cbv zeta.
  assert (get_clocks (config w) (clock_type +:+ "_clocks") ≠ []) as Hne
    by (rewrite Hget; by destruct pre).
  rewrite (toggle_protocol_found _ _ _ _ _ _ _ _ Hget Hpre Hc). cbv zeta.
  unfold TimebeatCLI.save_config. cbn [saves set_config]. rewrite Hfail.
  cbn [snd]. split; [by apply get_clocks_put|].
  unfold TimebeatSSHServer.reload_config, TimebeatCLI.load_config, bind, ret.
  cbn [disk count_save logger_error set_config]. rewrite Hdisk, Hparse. done.
Qed.

End Reload.

(** ** Lines, tokens and command names *)

Lemma all_chars_list (p : ascii -> bool) (l : list ascii) :
  PyStr.all_chars p (string_of_list_ascii l) = forallb p l.
Proof. induction l as [|c l IH]; simpl; [done|]. by rewrite IH. Qed.

Lemma string_of_list_ascii_nil (l : list ascii) :
  string_of_list_ascii l = "" → l = [].
Proof. by destruct l. Qed.

Lemma is_token_run (cur : list ascii) :
  cur ≠ [] → forallb (fun c => negb (PyStr.isspace c)) cur = true →
  is_token (string_of_list_ascii (rev cur)) = true.
Proof.
  intros Hne Hall. unfold is_token. apply andb_true_iff. split.
  - apply negb_true_iff, String.eqb_neq. intros H%string_of_list_ascii_nil.
    apply Hne. by rewrite <- (rev_involutive cur), H.
  - rewrite all_chars_list, forallb_forall. intros c Hc%in_rev.
    by apply (proj1 (forallb_forall _ _) Hall).
Qed.

Lemma split_aux_tokens (cur : list ascii) (s : string) :
  forallb (fun c => negb (PyStr.isspace c)) cur = true →
  Forall (fun t => is_token t = true) (PyStr.split_aux cur s).
Proof.
  revert cur. induction s as [|c s IH]; intros cur Hcur; simpl.
  - destruct cur as [|a cur]; [constructor|].
    constructor; [|constructor]. by apply is_token_run.
  - destruct (PyStr.isspace c) eqn:Hc.
    + destruct cur as [|a cur]; [by apply IH|].
      constructor; [by apply is_token_run|by apply IH].
    + apply IH. simpl. by rewrite Hc.
Qed.

Lemma isspace_lower_char (c : ascii) :
  PyStr.isspace (PyStr.lower_char c) = PyStr.isspace c.
Proof. by destruct c as [[] [] [] [] [] [] [] []]. Qed.

Lemma is_token_lower (t : string) : is_token t = true → is_token (PyStr.lower t) = true.
Proof.
  unfold is_token. intros [Hne Hall]%andb_true_iff. apply andb_true_iff. split.
  - by destruct t.
  - clear Hne. unfold PyStr.lower. induction t as [|c t IH]; [done|].
    simpl in Hall |- *. apply andb_true_iff in Hall as [Hc Ht].
    rewrite isspace_lower_char, Hc. by apply IH.
Qed.

Lemma split_gives_tokens (s : string) :
  Forall (fun t => is_token t = true) (PyStr.split s).
Proof. by apply split_aux_tokens. Qed.

(** X12. What [handle_client] takes from a line are tokens: the command name
    and every argument a handler receives, a protocol name among them, is
    not empty and holds no white space, whatever the line. *)
Theorem command_of_gives_tokens (line : string) :
  Forall (fun t => is_token t = true) (command_of line).
Proof.
  unfold command_of. pose proof (split_gives_tokens (PyStr.strip line)) as H.
  destruct (PyStr.split (PyStr.strip line)) as [|part0 args]; [done|].
  apply Forall_cons in H as [H0 Hargs]. apply Forall_cons. split; [|done].
  by apply is_token_lower.
Qed.

(** X13. One turn of the loop depends on the line through its tokens only,
    the first of them lowercased: two lines that agree on these, whatever
    their spacing and the case of the command name, lead to the same state.
    The arguments are compared as they are, case included. *)
Theorem session_turn_depends_on_tokens (table : gmap string handler)
    (line1 line2 : string) (rest : list stdin_event) (w : World) :
  line1 ≠ "" → line2 ≠ "" →
  command_of line1 = command_of line2 →
  session_loop table (Line line1 :: rest) w = session_loop table (Line line2 :: rest) w.
Proof.
  intros H1%String.eqb_neq H2%String.eqb_neq Hcmd.
  rewrite !session_loop_line. cbv zeta. rewrite H1, H2.
  pose proof (split_strip_not_nil line1) as Hs1.
  pose proof (split_strip_not_nil line2) as Hs2.
  unfold command_of in Hcmd.
  destruct (String.eqb_spec (PyStr.strip line1) "") as [He1|He1];
    destruct (String.eqb_spec (PyStr.strip line2) "") as [He2|He2]; [done| | |].
  - rewrite He1 in Hcmd. specialize (Hs2 He2).
    destruct (PyStr.split (PyStr.strip line2)); done.
  - rewrite He2 in Hcmd. specialize (Hs1 He1).
    destruct (PyStr.split (PyStr.strip line1)); done.
  - specialize (Hs1 He1). specialize (Hs2 He2).
    destruct (PyStr.split (PyStr.strip line1)) as [|p1 a1]; [done|].
    destruct (PyStr.split (PyStr.strip line2)) as [|p2 a2]; [done|].
    injection Hcmd as -> ->. done.
Qed.

(** ** What a session adds to the state *)

Lemma extends_refl (w : World) : extends w w.
Proof.
  split; [done|]. split; [|done]. exists []. by rewrite app_nil_r.
Qed.

Lemma extends_trans (w1 w2 w3 : World) : extends w1 w2 → extends w2 w3 → extends w1 w3.
Proof.
  intros (Ho1 & (r1 & Hc1 & Hf1) & He1) (Ho2 & (r2 & Hc2 & Hf2) & He2).
  split; [by etrans|]. split; [|congruence].
  exists (r1 ++ r2). split; [by rewrite Hc2, Hc1, app_assoc|by apply Forall_app].
Qed.

Lemma extends_write (text : string) (w : World) : extends w (write text w).
Proof.
  split; [by apply prefix_app_r|]. split; [|done]. exists []. by rewrite app_nil_r.
Qed.

Lemma extends_logger_error (text : string) (w : World) : extends w (logger_error text w).
Proof.
  split; [done|]. split; [|done]. exists []. by rewrite app_nil_r.
Qed.

Lemma extends_add_call (argv : list string) (w : World) :
  fixed_command_line argv = true → extends w (add_call argv w).
Proof.
  intros H. split; [done|]. split; [|done]. exists [argv]. split; [done|].
  by constructor.
Qed.

(** A change to the document, the file, the log and the count of saves
    only. *)
Lemma extends_same_session (w w' : World) :
  out w' = out w → calls w' = calls w → exit_status w' = exit_status w →
  extends w w'.
Proof.
  intros Ho Hc He. split; [by rewrite Ho|]. split; [|done].
  exists []. by rewrite app_nil_r.
Qed.

Section SessionEffects.

Variable subprocess_run : nat -> list string -> run_outcome.
Variable file_write : nat -> write_outcome.
Variable yaml_dump : option ConfigDocument -> string.
Variable yaml_safe_load : string -> string + option ConfigDocument.

Local Abbreviation commands :=
  (TimebeatSSHServer.commands subprocess_run file_write yaml_dump yaml_safe_load).

Lemma save_config_extends (w : World) :
  extends w (TimebeatCLI.save_config file_write yaml_dump w).2.
Proof.
  unfold TimebeatCLI.save_config.
  destruct (file_write (saves w)); by apply extends_same_session.
Qed.

Lemma toggle_protocol_extends (protocol clock_type : string) (w : World) :
  extends w (TimebeatCLI.toggle_protocol file_write yaml_dump protocol clock_type w).2.
Proof.
  unfold TimebeatCLI.toggle_protocol, bind, gets, modify, ret.
  destruct (loaded (config w)); cbn [negb]; cbv beta iota; [|apply extends_refl].
  destruct (clocks_at (config w) (clock_type +:+ "_clocks")) as [e|clocks];
    [apply extends_refl|].
  destruct (first_match protocol 0 clocks) as [[i c]|]; [|apply extends_refl].
  cbv beta iota zeta.
  match goal with |- context [TimebeatCLI.save_config _ _ ?w1] =>
    pose proof (save_config_extends w1) as Hs;
    destruct (TimebeatCLI.save_config file_write yaml_dump w1) as [[|] w2]
  end; cbn [snd] in *;
    (eapply extends_trans; [|exact Hs]); by apply extends_same_session.
Qed.

Lemma restart_service_extends (w : World) :
  extends w (TimebeatCLI.restart_service subprocess_run w).2.
Proof. rewrite restart_service_world. by apply extends_add_call. Qed.

Lemma returning_world (m : M string) (w : World) : (returning m w).2 = (m w).2.
Proof. unfold returning, bind, ret. by destruct (m w). Qed.

(** [list_protocols] only reads, also where reading raises. *)
Lemma list_protocols_world (w : World) : (TimebeatCLI.list_protocols w).2 = w.
Proof.
  unfold TimebeatCLI.list_protocols, bind, gets, ret.
  destruct (negb _); [done|].
  destruct (clocks_at _ "primary_clocks"); [done|].
  by destruct (clocks_at _ "secondary_clocks").
Qed.

(** No handler of the table writes to the session output or sets the exit
    status, and the tools a handler runs are of the fixed command lines. *)
Lemma handlers_extend (name : string) (h : handler) (args : list string) (w : World) :
  commands !! name = Some h → extends w (h args w).2.
Proof.
  intros Hin%elem_of_list_to_map_2.
  repeat (apply elem_of_cons in Hin as [[= -> ->]|Hin]); [..|by apply elem_of_nil in Hin].
  - apply extends_refl.
  - unfold TimebeatSSHServer.show_status. rewrite returning_world, get_status_world.
    by apply extends_add_call.
  - unfold TimebeatSSHServer.start_service. rewrite returning_world, start_service_world.
    by apply extends_add_call.
  - unfold TimebeatSSHServer.stop_service. rewrite returning_world, stop_service_world.
    by apply extends_add_call.
  - unfold TimebeatSSHServer.restart_service. rewrite returning_world.
    apply restart_service_extends.
  - unfold TimebeatSSHServer.show_logs.
    destruct (TimebeatSSHServer.logs_lines args) as [e|lines]; [apply extends_refl|].
    rewrite returning_world, get_logs_world. apply extends_add_call.
    apply is_numeral_str.
  - unfold TimebeatSSHServer.list_protocols. rewrite returning_world, list_protocols_world.
    apply extends_refl.
  - unfold TimebeatSSHServer.enable_protocol.
    destruct args as [|protocol more]; [apply extends_refl|]. unfold bind, ret.
    match goal with |- context [TimebeatCLI.toggle_protocol _ _ ?p ?t w] =>
      pose proof (toggle_protocol_extends p t w) as Ht;
      destruct (TimebeatCLI.toggle_protocol file_write yaml_dump p t w) as [result w1]
    end.
    cbn [snd] in Ht. destruct (PyStr.contains _ _); [|done].
    pose proof (restart_service_extends w1) as Hr.
    destruct (TimebeatCLI.restart_service subprocess_run w1) as [restart_result w2].
    by eapply extends_trans.
  - unfold TimebeatSSHServer.disable_protocol.
    destruct args as [|protocol more]; [apply extends_refl|]. unfold bind, ret.
    match goal with |- context [TimebeatCLI.toggle_protocol _ _ ?p ?t w] =>
      pose proof (toggle_protocol_extends p t w) as Ht;
      destruct (TimebeatCLI.toggle_protocol file_write yaml_dump p t w) as [result w1]
    end.
    cbn [snd] in Ht. destruct (PyStr.contains _ _); [|done].
    pose proof (restart_service_extends w1) as Hr.
    destruct (TimebeatCLI.restart_service subprocess_run w1) as [restart_result w2].
    by eapply extends_trans.
  - unfold TimebeatSSHServer.clock_status.
    rewrite returning_world, get_clock_sync_status_world.
    destruct (subprocess_run _ _).
    + eapply extends_trans; by apply extends_add_call.
    + by apply extends_add_call.
  - unfold TimebeatSSHServer.show_config, bind, gets, ret.
    destruct (loaded _); apply extends_refl.
  - unfold TimebeatSSHServer.reload_config, TimebeatCLI.load_config, bind, ret.
    destruct (disk w) as [text|]; [destruct (yaml_safe_load text)|];
      by apply extends_same_session.
  - apply extends_refl.
  - apply extends_refl.
Qed.

Lemma save_config_out (w : World) :
  out (TimebeatCLI.save_config file_write yaml_dump w).2 = out w.
Proof. unfold TimebeatCLI.save_config. by destruct (file_write (saves w)). Qed.

Lemma toggle_protocol_out (protocol clock_type : string) (w : World) :
  out (TimebeatCLI.toggle_protocol file_write yaml_dump protocol clock_type w).2 = out w.
Proof.
  unfold TimebeatCLI.toggle_protocol, bind, gets, modify, ret.
  destruct (loaded (config w)); cbn [negb]; cbv beta iota; [|done].
  destruct (clocks_at (config w) (clock_type +:+ "_clocks")) as [e|clocks]; [done|].
  destruct (first_match protocol 0 clocks) as [[i c]|]; [|done].
  cbv beta iota zeta.
  match goal with |- context [TimebeatCLI.save_config _ _ ?w1] =>
    pose proof (save_config_out w1) as Hs;
    destruct (TimebeatCLI.save_config file_write yaml_dump w1) as [[|] w2]
  end; cbn [snd] in *; by rewrite Hs.
Qed.

(** A handler is called with the arguments and is not given [process]: no
    handler of the table writes to the session output. *)
Lemma handlers_keep_output (name : string) (h : handler) (args : list string) (w : World) :
  commands !! name = Some h → out (h args w).2 = out w.
Proof.
  intros Hin%elem_of_list_to_map_2.
  repeat (apply elem_of_cons in Hin as [[= -> ->]|Hin]); [..|by apply elem_of_nil in Hin].
  - done.
  - unfold TimebeatSSHServer.show_status. by rewrite returning_world, get_status_world.
  - unfold TimebeatSSHServer.start_service. by rewrite returning_world, start_service_world.
  - unfold TimebeatSSHServer.stop_service. by rewrite returning_world, stop_service_world.
  - unfold TimebeatSSHServer.restart_service.
    by rewrite returning_world, restart_service_world.
  - unfold TimebeatSSHServer.show_logs.
    destruct (TimebeatSSHServer.logs_lines args) as [e|lines]; [done|].
    by rewrite returning_world, get_logs_world.
  - unfold TimebeatSSHServer.list_protocols.
    by rewrite returning_world, list_protocols_world.
  - unfold TimebeatSSHServer.enable_protocol.
    destruct args as [|protocol more]; [done|]. unfold bind, ret.
    match goal with |- context [TimebeatCLI.toggle_protocol _ _ ?p ?t w] =>
      pose proof (toggle_protocol_out p t w) as Ht;
      destruct (TimebeatCLI.toggle_protocol file_write yaml_dump p t w) as [result w1]
    end.
    cbn [snd] in Ht. destruct (PyStr.contains _ _); [|done].
    pose proof (restart_service_world subprocess_run w1) as Hr.
    destruct (TimebeatCLI.restart_service subprocess_run w1) as [restart_result w2].
    cbn [snd] in *. by rewrite Hr.
  - unfold TimebeatSSHServer.disable_protocol.
    destruct args as [|protocol more]; [done|]. unfold bind, ret.
    match goal with |- context [TimebeatCLI.toggle_protocol _ _ ?p ?t w] =>
      pose proof (toggle_protocol_out p t w) as Ht;
      destruct (TimebeatCLI.toggle_protocol file_write yaml_dump p t w) as [result w1]
    end.
    cbn [snd] in Ht. destruct (PyStr.contains _ _); [|done].
    pose proof (restart_service_world subprocess_run w1) as Hr.
    destruct (TimebeatCLI.restart_service subprocess_run w1) as [restart_result w2].
    cbn [snd] in *. by rewrite Hr.
  - unfold TimebeatSSHServer.clock_status.
    rewrite returning_world, get_clock_sync_status_world.
    by destruct (subprocess_run _ _).
  - unfold TimebeatSSHServer.show_config, bind, gets, ret. by destruct (loaded _).
  - unfold TimebeatSSHServer.reload_config, TimebeatCLI.load_config, bind, ret.
    by destruct (disk w) as [text|]; [destruct (yaml_safe_load text)|].
  - done.
  - done.
Qed.

Lemma session_loop_extends (input : list stdin_event) (w : World) :
  extends (write "timebeat> " w) (session_loop commands input w).
Proof.
  revert w. induction input as [|event rest IH]; intros w; [apply extends_refl|].
  destruct event as [line| |e]; [|apply extends_refl|apply extends_logger_error].
  rewrite session_loop_line. cbv zeta.
  destruct (String.eqb line ""); [apply extends_refl|].
  destruct (String.eqb (PyStr.strip line) "").
  { eapply extends_trans; [apply extends_write|apply IH]. }
  destruct (PyStr.split (PyStr.strip line)) as [|part0 args];
    [apply extends_logger_error|].
  destruct (commands !! PyStr.lower part0) as [h|] eqn:Hh.
  - pose proof (handlers_extend _ h args (write "timebeat> " w) Hh) as Hext.
    destruct (h args (write "timebeat> " w)) as [[result|e] w']; cbn [snd] in Hext;
      (eapply extends_trans; [exact Hext|]);
      (eapply extends_trans; [apply extends_write|]);
      (eapply extends_trans; [apply extends_write|apply IH]).
  - eapply extends_trans; [apply extends_write|].
    eapply extends_trans; [apply extends_write|].
    eapply extends_trans; [apply extends_write|apply IH].
Qed.

(** X15. A session only adds to the output: what was written before is
    still there, followed by the greeting, the hint at [help] and the first
    prompt, whatever the input.  When the input is used up, or reading it
    raised, the session ends with exit status 0. *)
Theorem handle_client_output (input : list stdin_event) (w : World) :
  let w' := TimebeatSSHServer.handle_client
              subprocess_run file_write yaml_dump yaml_safe_load input w in
  (∃ more, out w'
           = out w ++ ("Welcome to Timebeat SSH CLI Interface" +:+ nl)
               :: ("Type 'help' for available commands" +:+ nl +:+ nl)
               :: "timebeat> " :: more)
  ∧ exit_status w' = Some 0%Z.
Proof.
  cbv zeta. unfold TimebeatSSHServer.handle_client, session. cbv zeta.
  split; [|done].
  match goal with |- context [session_loop _ input ?w0] =>
    destruct (session_loop_extends input w0) as ([more Hout] & _ & _)
  end.
  exists more. cbn [out exit]. rewrite Hout. cbn [out write].
  by rewrite <- !app_assoc.
Qed.

(** X16. Whatever the operator types, the tools a session runs are of the
    fixed command lines: [systemctl] with one of four verbs on the service,
    [journalctl] with a count in digits, [chrony sources] and
    [timedatectl status].  No word of the input reaches a command line but a
    count of lines. *)
Theorem handle_client_runs_fixed_command_lines (input : list stdin_event) (w : World) :
  let w' := TimebeatSSHServer.handle_client
              subprocess_run file_write yaml_dump yaml_safe_load input w in
  ∃ runs, calls w' = calls w ++ runs
          ∧ Forall (fun argv => fixed_command_line argv = true) runs.
Proof.
  cbv zeta. unfold TimebeatSSHServer.handle_client, session. cbv zeta.
  match goal with |- context [session_loop _ input ?w0] =>
    destruct (session_loop_extends input w0) as (_ & (runs & Hcalls & Hfixed) & _)
  end.
  exists runs. by split.
Qed.

(** X17. The handlers of [help], [protocols], [config], [exit] and [quit]
    only read: whatever their arguments, the state after them is the state
    before, document and file included.  So do [enable] and [disable] when
    they are given no argument: they answer with their usage line. *)
Theorem read_only_handlers (args : list string) (w : World) :
  TimebeatSSHServer.enable_protocol subprocess_run file_write yaml_dump [] w
    = (Returned "Usage: enable <protocol>", w)
  ∧ TimebeatSSHServer.disable_protocol subprocess_run file_write yaml_dump [] w
    = (Returned "Usage: disable <protocol>", w)
  ∧ (TimebeatSSHServer.show_help args w).2 = w
  ∧ (TimebeatSSHServer.list_protocols args w).2 = w
  ∧ (TimebeatSSHServer.show_config yaml_dump args w).2 = w
  ∧ (TimebeatSSHServer.exit_session args w).2 = w
  ∧ (∀ name, name ∈ ["help"; "protocols"; "config"; "exit"; "quit"] →
       ∃ h : handler, commands !! name = Some h ∧ (h args w).2 = w).
Proof.
  assert ((TimebeatSSHServer.list_protocols args w).2 = w) as Hlist.
  { unfold TimebeatSSHServer.list_protocols.
    by rewrite returning_world, list_protocols_world. }
  assert ((TimebeatSSHServer.show_config yaml_dump args w).2 = w) as Hconfig.
  { unfold TimebeatSSHServer.show_config, bind, gets, ret. by destruct (loaded _). }
  split; [done|]. split; [done|].
  split; [done|]. split; [done|]. split; [done|]. split; [done|].
  intros name Hname.
  repeat (apply elem_of_cons in Hname as [->|Hname]); [..|by apply elem_of_nil in Hname].
  - by exists TimebeatSSHServer.show_help.
  - by exists TimebeatSSHServer.list_protocols.
  - by exists (TimebeatSSHServer.show_config yaml_dump).
  - by exists TimebeatSSHServer.exit_session.
  - by exists TimebeatSSHServer.exit_session.
Qed.

End SessionEffects.

(** C4 at the table of the server with one more command, whose handler
    raises, and at the lines [FOO bar] and [fault]: an unknown name and a
    handler that raises.  Either is answered, and the prompt and the answer
    to [help], the line that follows, come after. *)
Lemma dispatch_keeps_session_open_witness :
  let w := Scenario.world [Scenario.ptp] [] in
  let table := Scenario.commands_with_fault in
  let rest := [Line ("help" +:+ nl)] in
  (session_loop table (Line ("FOO bar" +:+ nl) :: rest) w
     = session_loop table rest
         (write ("Type 'help' for available commands" +:+ nl +:+ nl)
            (write ("Unknown command: foo" +:+ nl) (write "timebeat> " w)))
   ∧ ∃ more, out (session_loop table (Line ("FOO bar" +:+ nl) :: rest) w)
             = out w ++ "timebeat> "
                 :: [ "Unknown command: foo" +:+ nl;
                      "Type 'help' for available commands" +:+ nl +:+ nl ]
                 ++ "timebeat> " :: more)
  ∧ (session_loop table (Line ("fault" +:+ nl) :: rest) w
       = session_loop table rest
           (write ("Error executing command: division by zero" +:+ nl +:+ nl)
              (write "timebeat> " w))
     ∧ ∃ more, out (session_loop table (Line ("fault" +:+ nl) :: rest) w)
               = out w ++ "timebeat> "
                   :: [ "Error executing command: division by zero" +:+ nl +:+ nl ]
                   ++ "timebeat> " :: more).
Proof.
  cbv zeta.
  assert (∀ name (h : handler) args w0,
            Scenario.commands_with_fault !! name = Some h → out (h args w0).2 = out w0)
    as Hquiet.
  { intros name h args w0 Hh. unfold Scenario.commands_with_fault in Hh.
    apply lookup_insert_Some in Hh as [[<- <-]|[_ Hh]]; [done|].
    exact (handlers_keep_output _ _ _ _ name h args w0 Hh). }
  split.
  - destruct (dispatch_keeps_session_open Scenario.commands_with_fault
                ("FOO bar" +:+ nl) [Line ("help" +:+ nl)]
                (Scenario.world [Scenario.ptp] []) Hquiet ltac:(discriminate))
      as (_ & _ & H).
    destruct (H "FOO" ["bar"] ltac:(discriminate) eq_refl) as (Hunknown & _ & _).
    exact (Hunknown eq_refl).
  - destruct (dispatch_keeps_session_open Scenario.commands_with_fault
                ("fault" +:+ nl) [Line ("help" +:+ nl)]
                (Scenario.world [Scenario.ptp] []) Hquiet ltac:(discriminate))
      as (_ & _ & H).
    destruct (H "fault" [] ltac:(discriminate) eq_refl) as (_ & Hraised & _).
    exact (Hraised (fun _ => ret (Raised "division by zero")) "division by zero"
             (write "timebeat> " (Scenario.world [Scenario.ptp] [])) eq_refl eq_refl).
Defined.

(** ** A toggle as [protocols] shows it *)

Lemma startswith_app_l (sub a b : string) :
  PyStr.startswith sub a = true → PyStr.startswith sub (a +:+ b) = true.
Proof.
  revert a. induction sub as [|c sub IH]; intros a; [done|].
  destruct a as [|d a]; [done|].
  change (Ascii.eqb c d && PyStr.startswith sub a = true →
          Ascii.eqb c d && PyStr.startswith sub (a +:+ b) = true).
  intros [-> Hs]%andb_true_iff. by rewrite (IH a Hs).
Qed.

Lemma contains_app_l (sub a b : string) :
  PyStr.contains sub a = true → PyStr.contains sub (a +:+ b) = true.
Proof.
  induction a as [|c a IH].
  - simpl. rewrite orb_false_r. intros H. destruct sub; [|done].
    by apply startswith_contains.
  - change (PyStr.startswith sub (String c a) || PyStr.contains sub a = true →
            PyStr.startswith sub (String c a +:+ b) || PyStr.contains sub (a +:+ b) = true).
    intros [H|H]%orb_true_iff.
    + by rewrite (startswith_app_l _ _ b H).
    + rewrite (IH H). apply orb_true_r.
Qed.

Lemma contains_refl (s : string) : PyStr.contains s s = true.
Proof. apply startswith_contains, startswith_refl. Qed.

Lemma contains_join (x sep : string) (parts : list string) :
  In x parts → PyStr.contains x (PyStr.join sep parts) = true.
Proof.
  induction parts as [|p rest IH]; [done|].
  destruct rest as [|q rest].
  - intros [<-|[]]. apply contains_refl.
  - change (PyStr.join sep (p :: q :: rest)) with (p +:+ sep +:+ PyStr.join sep (q :: rest)).
    intros [<-|Hin].
    + apply contains_app_l, contains_refl.
    + do 2 apply contains_app_r. by apply IH.
Qed.

Section ToggleShown.

Variable file_write : nat -> write_outcome.
Variable yaml_dump : option ConfigDocument -> string.

Local Abbreviation toggle := (TimebeatCLI.toggle_protocol file_write yaml_dump).

(** The document after [toggle_protocol] found a matching entry. *)
Lemma toggle_protocol_found_config (protocol clock_type : string) (w : World)
    (pre post : list ClockEntry) (c : ClockEntry) :
  get_clocks (config w) (clock_type +:+ "_clocks") = pre ++ c :: post →
  Forall (fun e => matches protocol e = false) pre →
  matches protocol c = true →
  config (toggle protocol clock_type w).2
  = put_clocks (clock_type +:+ "_clocks")
      (pre ++ set_disable (negb (disabled c)) c :: post) (config w).
Proof.
  intros Hget Hpre Hc.
  rewrite (toggle_protocol_found _ _ _ _ _ _ _ _ Hget Hpre Hc). cbv zeta.
  match goal with |- context [TimebeatCLI.save_config _ _ ?w1] =>
    pose proof (save_config_keeps_config file_write yaml_dump w1) as Hcfg;
    destruct (TimebeatCLI.save_config file_write yaml_dump w1) as [saved w2]
  end.
  by cbn [fst snd config set_config] in *.
Qed.

(** X18. After [toggle_protocol] flipped an entry of the primary or of the
    secondary clocks, in a document whose two lists can both be read,
    [list_protocols] shows the entry in its new state, saved or not: the
    listing holds the line of the entry with [DISABLED] where the entry was
    enabled and with [ENABLED] where it was disabled. *)
Theorem list_protocols_shows_toggled_entry (protocol clock_type : string)
    (w : World) (pre post primary secondary : list ClockEntry) (c : ClockEntry) :
  clock_type = "primary" ∨ clock_type = "secondary" →
  clocks_at (config w) "primary_clocks" = inr primary →
  clocks_at (config w) "secondary_clocks" = inr secondary →
  get_clocks (config w) (clock_type +:+ "_clocks") = pre ++ c :: post →
  Forall (fun e => matches protocol e = false) pre →
  matches protocol c = true →
  let shown := protocol_line (set_disable (negb (disabled c)) c) in
  let listing := (TimebeatCLI.list_protocols (toggle protocol clock_type w).2).1 in
  PyStr.contains shown listing = true
  ∧ PyStr.contains (if disabled c then ": ENABLED (" else ": DISABLED (") shown = true.
Proof.
  intros Hclass Hprimary Hsecondary Hget Hpre Hc. cbv zeta.
  assert (get_clocks (config w) (clock_type +:+ "_clocks") ≠ []) as Hne
    by (rewrite Hget; by destruct pre).
  pose proof (toggle_protocol_found_config _ _ _ _ _ _ Hget Hpre Hc) as Hcfg.
  split.
  - unfold TimebeatCLI.list_protocols, bind, gets, ret. rewrite Hcfg.
    rewrite (get_clocks_loaded _ (clock_type +:+ "_clocks"))
      by (rewrite get_clocks_put by done; by destruct pre).
    cbn [negb]. cbv beta iota.
    destruct Hclass as [-> | ->].
    + change ("primary" +:+ "_clocks") with "primary_clocks" in *.
      rewrite clocks_at_put by done.
      rewrite clocks_at_put_ne, Hsecondary by done.
      cbn [fst]. apply contains_join.
      rewrite !in_app_iff. right. left. apply in_map, in_or_app. right. by left.
    + change ("secondary" +:+ "_clocks") with "secondary_clocks" in *.
      rewrite clocks_at_put_ne, Hprimary by done.
      rewrite clocks_at_put by done.
      cbn [fst]. apply contains_join.
      rewrite !in_app_iff. right. right. right. apply in_map, in_or_app. right. by left.
  - unfold protocol_line. rewrite disabled_set_disable.
    apply contains_app_r, contains_app_r.
    destruct (disabled c); cbn [negb];
      apply startswith_contains; match goal with
      | |- PyStr.startswith ?p (": " +:+ ?s +:+ " (" +:+ ?r) = true =>
          change (PyStr.startswith p (p +:+ r) = true); apply startswith_prefix
      end.
Qed.

End ToggleShown.

(** ** The further theorems at concrete inputs *)

(** X1 at a name the primary clocks do not have, and at a class the
    document does not have. *)
Lemma toggle_protocol_not_found_witness :
  let w := Scenario.world [Scenario.ptp] [] in
  let toggle := TimebeatCLI.toggle_protocol Scenario.writes_succeed Scenario.dump in
  toggle "ntp" "primary" w = ("Protocol ntp not found in primary clocks", w)
  ∧ toggle "ptp" "tertiary" w = ("Protocol ptp not found in tertiary clocks", w).
Proof.
  cbv zeta. split.
  - apply (toggle_protocol_not_found Scenario.writes_succeed Scenario.dump
             "ntp" "primary" (Scenario.world [Scenario.ptp] []) [Scenario.ptp]);
      [reflexivity | reflexivity | repeat constructor].
  - apply (toggle_protocol_not_found Scenario.writes_succeed Scenario.dump
             "ptp" "tertiary" (Scenario.world [Scenario.ptp] []) []);
      [reflexivity | reflexivity | constructor].
Defined.

(** X2 at a document that was never loaded and at an empty one. *)
Lemma not_loaded_is_reported_witness :
  TimebeatCLI.list_protocols ScenarioFile.unloaded
    = ("Configuration not loaded", ScenarioFile.unloaded)
  ∧ TimebeatSSHServer.enable_protocol Scenario.tools_succeed Scenario.writes_succeed
      Scenario.dump ["ptp"] ScenarioFile.empty_document
    = (Returned "Configuration not loaded", ScenarioFile.empty_document).
Proof.
  split.
  - exact (proj1 (proj2 (not_loaded_is_reported Scenario.tools_succeed
                           Scenario.writes_succeed Scenario.dump
                           ScenarioFile.unloaded eq_refl))).
  - destruct (not_loaded_is_reported Scenario.tools_succeed Scenario.writes_succeed
                Scenario.dump ScenarioFile.empty_document eq_refl)
      as (_ & _ & _ & H).
    exact (proj1 (H "ptp" [])).
Defined.

(** X3 at the enabled [ptp] entry. *)
Lemma toggle_protocol_saved_witness :
  let r := TimebeatCLI.toggle_protocol Scenario.writes_succeed Scenario.dump
             "ptp" "primary" (Scenario.world [Scenario.ptp] []) in
  r.1 = "Protocol PTP DISABLED in primary clocks"
  ∧ disk r.2 = Some "  PTP: DISABLED (eth0)"
  ∧ saves r.2 = 1.
Proof.
  cbv zeta.
  destruct (toggle_protocol_saved Scenario.writes_succeed Scenario.dump "ptp" "primary"
              (Scenario.world [Scenario.ptp] []) [] [] Scenario.ptp)
    as (Htext & Hdisk & Hsaves & _);
    [reflexivity | constructor | reflexivity | reflexivity |].
  split; [exact Htext|]. split; [exact Hdisk|exact Hsaves].
Defined.

(** X4 at [enable ptp] on the disabled entry and [disable ntp secondary] on
    an enabled one. *)
Lemma enable_disable_then_restart_witness :
  let enabled_ntp := mkClock (Some "ntp") None None (Some "10.0.0.1") None in
  let r1 := TimebeatSSHServer.enable_protocol Scenario.tools_succeed
              Scenario.writes_succeed Scenario.dump ["ptp"]
              (Scenario.world [Scenario.ptp_off] []) in
  let r2 := TimebeatSSHServer.disable_protocol Scenario.tools_succeed
              Scenario.writes_succeed Scenario.dump ["NTP"; "secondary"]
              (Scenario.world [Scenario.ptp] [enabled_ntp]) in
  r1.1 = Returned ("Protocol PTP ENABLED in primary clocks" +:+ nl
                   +:+ "Timebeat service restarted successfully")
  ∧ calls r1.2 = [["systemctl"; "restart"; "timebeat"]]
  ∧ r2.1 = Returned ("Protocol NTP DISABLED in secondary clocks" +:+ nl
                     +:+ "Timebeat service restarted successfully")
  ∧ get_clocks (config r2.2) "secondary_clocks"
    = [mkClock (Some "ntp") (Some true) None (Some "10.0.0.1") None].
Proof.
  cbv zeta.
  destruct (enable_disable_then_restart Scenario.tools_succeed Scenario.writes_succeed
              Scenario.dump "ptp" [] (Scenario.world [Scenario.ptp_off] [])
              [] [] Scenario.ptp_off)
    as (Henable & _); [reflexivity | constructor | reflexivity | reflexivity |].
  destruct (Henable eq_refl) as (Htext1 & Hcalls1 & _).
  destruct (enable_disable_then_restart Scenario.tools_succeed Scenario.writes_succeed
              Scenario.dump "NTP" ["secondary"]
              (Scenario.world [Scenario.ptp]
                 [mkClock (Some "ntp") None None (Some "10.0.0.1") None])
              [] [] (mkClock (Some "ntp") None None (Some "10.0.0.1") None))
    as (_ & Hdisable); [reflexivity | constructor | reflexivity | reflexivity |].
  destruct (Hdisable eq_refl) as (Htext2 & _ & Hclocks2 & _).
  split; [exact Htext1|]. split; [exact Hcalls1|]. split; [exact Htext2|exact Hclocks2].
Defined.

(** X5 at a file that cannot be opened for writing. *)
Lemma failed_save_skips_restart_witness :
  let r := TimebeatSSHServer.enable_protocol Scenario.tools_succeed Scenario.read_only
             Scenario.dump ["ptp"] (Scenario.world [Scenario.ptp_off] []) in
  r.1 = Returned "Failed to save configuration" ∧ calls r.2 = [].
Proof.
  cbv zeta.
  destruct (failed_save_skips_restart Scenario.tools_succeed Scenario.read_only
              Scenario.dump "ptp" [] (Scenario.world [Scenario.ptp_off] [])
              [] [] Scenario.ptp_off)
    as (Htext & Hcalls & _); [reflexivity | constructor | reflexivity | discriminate |].
  split; [exact Htext|exact Hcalls].
Defined.

(** X6 at [PTP] and [ptp]. *)
Lemma toggle_protocol_ignores_case_witness :
  let w := Scenario.world [Scenario.ptp] [] in
  let toggle := TimebeatCLI.toggle_protocol Scenario.writes_succeed Scenario.dump in
  (toggle "PTP" "primary" w).2 = (toggle "ptp" "primary" w).2.
Proof.
  cbv zeta.
  exact (toggle_protocol_ignores_case Scenario.writes_succeed Scenario.dump
           "PTP" "ptp" "primary" (Scenario.world [Scenario.ptp] []) eq_refl).
Defined.

(** X10 with a parser that reads back what the toggle dumped. *)
Lemma reload_after_saved_toggle_witness :
  let w1 := (TimebeatCLI.toggle_protocol Scenario.writes_succeed Scenario.dump
               "ptp" "primary" (Scenario.world [Scenario.ptp] [])).2 in
  let safe_load := ScenarioFile.parses_to "  PTP: DISABLED (eth0)" (config w1) in
  TimebeatSSHServer.reload_config safe_load [] w1
  = (Returned "Configuration reloaded successfully", w1).
Proof.
  cbv zeta.
  apply (reload_after_saved_toggle Scenario.writes_succeed Scenario.dump
           (ScenarioFile.parses_to "  PTP: DISABLED (eth0)"
              (config (TimebeatCLI.toggle_protocol Scenario.writes_succeed Scenario.dump
                         "ptp" "primary" (Scenario.world [Scenario.ptp] [])).2))
           "ptp" "primary" [] (Scenario.world [Scenario.ptp] []) [] [] Scenario.ptp);
    [reflexivity | constructor | reflexivity | reflexivity | reflexivity].
Defined.

(** X11 at a file that cannot be opened for writing and that parses to the
    document from before the toggle. *)
Lemma reload_after_failed_save_witness :
  let w := Scenario.world [Scenario.ptp] [] in
  let safe_load := ScenarioFile.parses_to "timebeat: on disk" (config w) in
  let w1 := (TimebeatCLI.toggle_protocol Scenario.read_only Scenario.dump
               "ptp" "primary" w).2 in
  get_clocks (config w1) "primary_clocks"
    = [mkClock (Some "ptp") (Some true) (Some "eth0") None None]
  ∧ config (TimebeatSSHServer.reload_config safe_load [] w1).2 = config w.
Proof.
  cbv zeta.
  destruct (reload_after_failed_save Scenario.read_only Scenario.dump
              (ScenarioFile.parses_to "timebeat: on disk"
                 (config (Scenario.world [Scenario.ptp] [])))
              "ptp" "primary" [] (Scenario.world [Scenario.ptp] []) [] [] Scenario.ptp
              ("[Errno 13] Permission denied: '" +:+ config_path +:+ "'")
              "timebeat: on disk" (config (Scenario.world [Scenario.ptp] [])))
    as (Hmem & _ & Hfile);
    [reflexivity | constructor | reflexivity | reflexivity | reflexivity | reflexivity |].
  split; [exact Hmem|exact Hfile].
Defined.

(** X13 at two spellings of [enable PTP secondary]. *)
Lemma session_turn_depends_on_tokens_witness :
  let w := Scenario.world [Scenario.ptp] [Scenario.ptp_off] in
  session_loop Scenario.commands [Line ("  ENABLE   PTP secondary " +:+ nl)] w
  = session_loop Scenario.commands [Line ("enable PTP secondary" +:+ nl)] w.
Proof.
  cbv zeta.
  apply (session_turn_depends_on_tokens Scenario.commands
           ("  ENABLE   PTP secondary " +:+ nl) ("enable PTP secondary" +:+ nl) []
           (Scenario.world [Scenario.ptp] [Scenario.ptp_off]));
    [discriminate | discriminate | reflexivity].
Defined.

(** X14 at a document whose [secondary_clocks:] was left empty, and at one
    whose [timebeat:] was. *)
Lemma unreadable_clocks_are_reported_witness :
  let run := Scenario.tools_succeed in
  let fw := Scenario.writes_succeed in
  TimebeatSSHServer.disable_protocol run fw Scenario.dump ["ptp"; "secondary"]
    ScenarioAlias.null_secondary
  = (Returned "Error toggling protocol: 'NoneType' object is not iterable",
     ScenarioAlias.null_secondary)
  ∧ TimebeatCLI.list_protocols ScenarioAlias.null_secondary
    = ("Error listing protocols: 'NoneType' object is not iterable",
       ScenarioAlias.null_secondary)
  ∧ TimebeatCLI.toggle_protocol fw Scenario.dump "ptp" "primary" ScenarioAlias.null_timebeat
    = ("Error toggling protocol: 'NoneType' object has no attribute 'get'",
       ScenarioAlias.null_timebeat)
  ∧ TimebeatCLI.list_protocols ScenarioAlias.null_timebeat
    = ("Error listing protocols: 'NoneType' object has no attribute 'get'",
       ScenarioAlias.null_timebeat).
Proof.
  cbv zeta.
  destruct (unreadable_clocks_are_reported Scenario.tools_succeed Scenario.writes_succeed
              Scenario.dump "ptp" ["secondary"] "'NoneType' object is not iterable"
              ScenarioAlias.null_secondary eq_refl eq_refl)
    as (_ & _ & Hdisable & Hlist).
  destruct (unreadable_clocks_are_reported Scenario.tools_succeed Scenario.writes_succeed
              Scenario.dump "ptp" [] "'NoneType' object has no attribute 'get'"
              ScenarioAlias.null_timebeat eq_refl eq_refl)
    as (Htoggle & _ & _ & Hlist').
  split; [exact (Hdisable eq_refl)|].
  split; [apply Hlist; right; split; [reflexivity|by eexists]|].
  split; [exact Htoggle|]. apply Hlist'. by left.
Defined.

(** X18 at [ptp] among the secondary clocks. *)
Lemma list_protocols_shows_toggled_entry_witness :
  let w := Scenario.world [Scenario.ntp] [Scenario.ntp; Scenario.ptp] in
  let w1 := (TimebeatCLI.toggle_protocol Scenario.disk_full Scenario.dump
               "ptp" "secondary" w).2 in
  PyStr.contains "  PTP: DISABLED (eth0)" (TimebeatCLI.list_protocols w1).1 = true.
Proof.
  cbv zeta.
  destruct (list_protocols_shows_toggled_entry Scenario.disk_full Scenario.dump
              "ptp" "secondary"
              (Scenario.world [Scenario.ntp] [Scenario.ntp; Scenario.ptp])
              [Scenario.ntp] [] [Scenario.ntp] [Scenario.ntp; Scenario.ptp] Scenario.ptp)
    as (Hshown & _);
    [right; reflexivity | reflexivity | reflexivity | reflexivity
     | repeat constructor | reflexivity |].
  exact Hshown.
Defined.
